(** * Road sign inventory tool: a shallow embedding of the Python sources

    The development follows the layout of the repository:

    - [Config]     : [config.py]      ([ALLOWED_EXTENSIONS], [allowed_file]);
    - [Routes]     : [app/routes.py]  ([download_file]);
    - [VideoProcessor] : [app/processing/video_processor.py]
                     ([process_video], its frame loop and its annotation code).

    Python [str] values are modelled by [string] (sequences of code points
    below 256), Python [int] by [Z], the finite values of numpy's float32 by
    the rationals [Q] (infinities and NaN have no counterpart), [dict] by
    [gmap] and [set] by [gset].  Exceptions are explicit: a computation
    returns a [result].  The libraries the sources call (ultralytics, OpenCV,
    werkzeug, flask, [os.path]) are parameters of the model.  The drawing
    routines of OpenCV are modelled on the points they accept, those whose
    coordinates fit a C [int] ([Accepted]); the binding refuses any other
    point with an exception. *)

From stdpp Require Import gmap strings list pretty.
From Stdlib Require Import Ascii QArith Qabs Qround.
From Stdlib Require Import Lia.

Local Open Scope Z_scope.
Local Open Scope string_scope.
Local Open Scope list_scope.

(** ** Exceptions and results *)

Inductive exn : Type :=
| IOError (msg : string)
| ValueError (msg : string)
| IndexError
| AttributeError (msg : string)
| FileNotFoundError
| LibraryError (what : string).

Inductive result (A : Type) : Type :=
| Ok (a : A)
| Raise (e : exn).
Arguments Ok {A} a.
Arguments Raise {A} e.

(** ** Python string primitives used by the sources *)

Module PyStr.

(** [c in s] for a one-character [c]. *)
Fixpoint contains (c : ascii) (s : string) : bool :=
  match s with
  | EmptyString => false
  | String a s' => if decide (a = c) then true else contains c s'
  end.

(** [str.lower] on one code point below 256: [A-Z] and the Latin-1 capitals
    (U+00C0..U+00DE except the multiplication sign U+00D7) move up by 32. *)
Definition lower_char (a : ascii) : ascii :=
  let n := N_of_ascii a in
  if ((65 <=? n) && (n <=? 90))%N
     || ((192 <=? n) && (n <=? 222) && negb (n =? 215))%N
  then ascii_of_N (n + 32) else a.

Fixpoint lower (s : string) : string :=
  match s with
  | EmptyString => EmptyString
  | String a s' => String (lower_char a) (lower s')
  end.

(** The split point of [s.rsplit(sep, 1)]: the text before and after the
    last occurrence of [sep], when there is one. *)
Fixpoint rsplit1_at (sep : ascii) (s : string) : option (string * string) :=
  match s with
  | EmptyString => None
  | String a s' =>
      match rsplit1_at sep s' with
      | Some (pre, post) => Some (String a pre, post)
      | None => if decide (a = sep) then Some (EmptyString, s') else None
      end
  end.

(** [s.rsplit(sep, 1)]: a list of two pieces, or of [s] alone. *)
Definition rsplit1 (sep : ascii) (s : string) : list string :=
  match rsplit1_at sep s with
  | Some (pre, post) => [pre; post]
  | None => [s]
  end.

End PyStr.

(** ** config.py *)

Module Config.
Import PyStr.

Definition ALLOWED_EXTENSIONS : gset string :=
  {[ "mp4"; "avi"; "mov"; "mkv" ]}.

(** [return '.' in filename and
           filename.rsplit('.', 1)[1].lower() in ALLOWED_EXTENSIONS].
    The index [[1]] raises [IndexError] on a one-element list; [and] only
    evaluates it when the left operand is true. *)
Definition allowed_file (filename : string) : result bool :=
  if contains "." filename then
    match rsplit1 "." filename !! 1%nat with
    | Some ext => Ok (bool_decide (lower ext ∈ ALLOWED_EXTENSIONS))
    | None => Raise IndexError
    end
  else Ok false.

End Config.

(** ** app/routes.py: the download route *)

Module Routes.

(** What the route needs from werkzeug, flask, [os.path] and the
    configuration.  [send_from_directory] either produces the body of the
    file or raises. *)
Record Web : Type := mkWeb {
  secure_filename : string → string;
  OUTPUT_FOLDER : string;
  path_join : string → string → string;
  path_exists : string → bool;
  send_from_directory : string → string → result string;
}.

Inductive response : Type :=
| Redirect (endpoint : string)
| Attachment (directory name body : string).

(** A flashed message and its category. *)
Definition flash_msg : Type := (string * string)%type.

(** [download_file(filename)]: the flashed messages and the response. *)
Definition download_file (W : Web) (filename : string)
  : list flash_msg * result response :=
  let safe_filename := secure_filename W filename in
  if negb (bool_decide (safe_filename = filename)) then
    ([("Invalid filename.", "danger")], Ok (Redirect "main.index"))
  else
    let output_dir := OUTPUT_FOLDER W in
    let file_path := path_join W output_dir safe_filename in
    if negb (path_exists W file_path) then
      ([("File not found: " +:+ safe_filename, "danger")],
       Ok (Redirect "main.index"))
    else
      match send_from_directory W output_dir safe_filename with
      | Ok body => ([], Ok (Attachment output_dir safe_filename body))
      | Raise FileNotFoundError =>
          ([("Error: Processed file not found (" +:+ safe_filename +:+ ").",
             "danger")],
           Ok (Redirect "main.index"))
      | Raise e => ([], Raise e)
      end.

(** The answer carries a file. *)
Definition served (r : list flash_msg * result response) : Prop :=
  ∃ d n body, r.2 = Ok (Attachment d n body).

End Routes.

(** ** Python numeric primitives used by the frame loop *)

Module PyNum.

Local Open Scope Z_scope.

(** [int(x)] of a finite float: truncation towards zero. *)
Definition py_int (x : Q) : Z := Z.quot (Qnum x) (Zpos (Qden x)).

(** The integer nearest to a non-negative rational, ties to the even
    neighbour (the rounding of the [f] presentation type). *)
Definition round_half_even (x : Q) : Z :=
  let n := Qnum x in
  let d := Zpos (Qden x) in
  let fl := n / d in
  match (2 * (n mod d)) ?= d with
  | Lt => fl
  | Gt => fl + 1
  | Eq => if Z.even fl then fl else fl + 1
  end.

Definition digit (n : Z) : string :=
  String (pretty_N_char (Z.to_N n)) EmptyString.

(** [f"{x:.2f}"] for a finite [x]: sign, integer digits, a point and
    exactly two decimals of the correctly rounded value. *)
Definition format_2f (x : Q) : string :=
  let h := round_half_even (Qabs x * 100) in
  (if Qnum x <? 0 then "-" else "")
    +:+ pretty (h / 100) +:+ "."
    +:+ digit ((h / 10) mod 10) +:+ digit (h mod 10).

End PyNum.

(** ** app/processing/video_processor.py *)

Module VideoProcessor.
Import PyNum.
Local Open Scope Z_scope.

(** *** Data *)

Abbreviation Color := (Z * Z * Z)%type (only parsing).
Abbreviation Point := (Z * Z)%type (only parsing).

(** A frame is a numpy array of shape height x width x 3. *)
Abbreviation Frame := (list (list (Z * Z * Z))) (only parsing).

(** Arrays live in a store; a Python variable holds a location. *)
Abbreviation loc := nat (only parsing).

(** One row of [results[0].boxes.data]. *)
Abbreviation det_row := (list Q) (only parsing).

(** A loaded detector: the [names] table, [model.to(device)] and
    [model.predict(frame, ...)].  [predict] is given the number of the
    frame as well, so that a detector may answer differently on equal
    frames.  Its answer is the array behind [results[0].boxes], or [None]
    when the result carries no boxes. *)
Record Model : Type := mkModel {
  names : gmap Z string;
  to_device : string → result ();
  predict : Z → Frame → result (option (list det_row));
}.

(** What [cap.get] answers for the four properties the driver asks. *)
Record VideoProps : Type := mkProps {
  CAP_PROP_FRAME_WIDTH : Q;
  CAP_PROP_FRAME_HEIGHT : Q;
  CAP_PROP_FPS : Q;
  CAP_PROP_FRAME_COUNT : Q;
}.

(** The libraries and files around one call of [process_video]. *)
Record World : Type := mkWorld {
  cuda_is_available : bool;
  YOLO : string → result Model;
  (** [None]: the capture object reports [isOpened() == False]. *)
  VideoCapture : string → option (VideoProps * list Frame);
  (** The answer of [isOpened()] on the writer just built. *)
  VideoWriter : string → string → Q → Z * Z → bool;
  getTextSize : string → Z → Q → Z → (Z * Z) * Z;
  rectangle : Frame → Point → Point → Color → Z → Frame;
  putText : Frame → string → Point → Z → Q → Color → Z → Frame;
}.

Definition FONT_HERSHEY_SIMPLEX : Z := 0.

(** *** Observable behaviour *)

Inductive level : Type := INFO | ERROR.

(** One constructor per logging call of the source, with its arguments. *)
Inductive message : Type :=
| MsgStarting (input_video_path : string)
| MsgUsingModel (model_path : string)
| MsgOutputTo (output_video_path : string)
| MsgUsingDevice (device : string)
| MsgModelLoaded (class_names : gmap Z string)
| MsgModelLoadError (e : exn)
| MsgOpenError (input_video_path : string)
| MsgVideoProperties (w h : Z) (fps : Q) (total_frames : Z)
| MsgWriterError (output_video_path : string)
| MsgLoopStart
| MsgEndOfVideo
| MsgProgress (frame_count total_frames : Z)
| MsgPredictError (frame_count : Z) (e : exn)
| MsgFinished
| MsgComplete (output_video_path : string).

Inductive event : Type :=
| EvLog (lvl : level) (m : message)
| EvLoadModel (model_path : string)
| EvOpenSource (input_video_path : string)
| EvOpenSink (output_video_path : string)
| EvRead (r : option (loc * Frame))
| EvPredict (frame_count : Z) (l : loc)
| EvCopy (src dst : loc)
| EvRectangle (img : loc) (pt1 pt2 : Point) (color : Color) (thickness : Z)
| EvPutText (img : loc) (text : string) (org : Point) (color : Color)
| EvWrite (img : loc) (content : Frame)
| EvReleaseSource
| EvReleaseSink.

(** A capture or a writer object. *)
Inductive handle : Type :=
| NotCreated
| NotOpened
| Opened
| Released.

Record State : Type := mkState {
  heap : gmap loc Frame;
  next_loc : loc;
  cap : handle;
  video_writer : handle;
  (** The frames appended to the output container, oldest first. *)
  sink : list Frame;
  (** Every call into a library, oldest first. *)
  trace : list event;
}.

Definition initial : State :=
  {| heap := ∅; next_loc := 0%nat; cap := NotCreated;
     video_writer := NotCreated; sink := []; trace := [] |}.

(** *** The state-and-exception monad of the driver *)

Definition M (A : Type) : Type := State → State * result A.

Definition ret {A} (a : A) : M A := λ s, (s, Ok a).
Definition raise {A} (e : exn) : M A := λ s, (s, Raise e).
Definition bind {A B} (m : M A) (k : A → M B) : M B :=
  λ s, match m s with
       | (s', Ok a) => k a s'
       | (s', Raise e) => (s', Raise e)
       end.
(** [try: m except Exception as e: h e]. *)
Definition try_except {A} (m : M A) (h : exn → M A) : M A :=
  λ s, match m s with
       | (s', Ok a) => (s', Ok a)
       | (s', Raise e) => h e s'
       end.
Definition lift {A} (r : result A) : M A := λ s, (s, r).

Global Instance M_bind : MBind M := λ A B k m, bind m k.
Global Instance M_ret : MRet M := λ A a, ret a.

Definition emit (e : event) : M () :=
  λ s, (mkState (heap s) (next_loc s) (cap s) (video_writer s) (sink s)
                (trace s ++ [e]), Ok ()).
Definition log (lvl : level) (m : message) : M () := emit (EvLog lvl m).

Definition set_cap (h : handle) : M () :=
  λ s, (mkState (heap s) (next_loc s) h (video_writer s) (sink s) (trace s),
        Ok ()).
Definition set_writer (h : handle) : M () :=
  λ s, (mkState (heap s) (next_loc s) (cap s) h (sink s) (trace s), Ok ()).

(** A new array holding [f]. *)
Definition alloc (f : Frame) : M loc :=
  λ s, (mkState (<[next_loc s := f]> (heap s)) (S (next_loc s)) (cap s)
                (video_writer s) (sink s) (trace s), Ok (next_loc s)).
Definition load (l : loc) : M Frame :=
  λ s, (s, Ok (default [] (heap s !! l))).
(** In-place update of the array at [l]. *)
Definition update (l : loc) (g : Frame → Frame) : M () :=
  λ s, (mkState (alter g l (heap s)) (next_loc s) (cap s) (video_writer s)
                (sink s) (trace s), Ok ()).
Definition append_sink (f : Frame) : M () :=
  λ s, (mkState (heap s) (next_loc s) (cap s) (video_writer s)
                (sink s ++ [f]) (trace s), Ok ()).

(** *** The library calls, as monadic actions *)

(** [frame.copy()]. *)
Definition copy (l : loc) : M loc :=
  f ← load l; l' ← alloc f; emit (EvCopy l l');; mret l'.

(** [cv2.rectangle(img, pt1, pt2, color, thickness)] and [cv2.putText],
    for points OpenCV accepts. *)
Definition cv2_rectangle (W : World) (img : loc) (pt1 pt2 : Point)
    (color : Color) (thickness : Z) : M () :=
  emit (EvRectangle img pt1 pt2 color thickness);;
  update img (λ f, rectangle W f pt1 pt2 color thickness).

Definition cv2_putText (W : World) (img : loc) (text : string) (org : Point)
    (fontFace : Z) (fontScale : Q) (color : Color) (thickness : Z) : M () :=
  emit (EvPutText img text org color);;
  update img (λ f, putText W f text org fontFace fontScale color thickness).

(** [video_writer.write(img)]. *)
Definition write (img : loc) : M () :=
  f ← load img; emit (EvWrite img f);; append_sink f.

(** [model.predict(frame, device=device, verbose=False)]. *)
Definition model_predict (model : Model) (frame_count : Z) (frame : loc)
  : M (option (list det_row)) :=
  f ← load frame; emit (EvPredict frame_count frame);;
  lift (predict model frame_count f).

(** *** The body of the loop over the detections (lines 88-105) *)

(** [class_names.get(class_id, f"Class_{class_id}")]. *)
Definition class_label (class_names : gmap Z string) (class_id : Z) : string :=
  default ("Class_" +:+ pretty class_id) (class_names !! class_id).

Definition label_with_score (class_names : gmap Z string) (class_id : Z)
    (score : Q) : string :=
  class_label class_names class_id +:+ ": " +:+ format_2f score.

(** [text_y = y1 - 10 if y1 - 10 > text_height
             else y1 + text_height + baseline]. *)
Definition text_y_of (y1 text_height baseline : Z) : Z :=
  if y1 - 10 >? text_height then y1 - 10 else y1 + text_height + baseline.

Definition GREEN : Color := (0, 255, 0).
Definition BLACK : Color := (0, 0, 0).

(** The [ValueError] of the unpacking on line 88 for a row of [n] values,
    [n] other than six. *)
Definition unpack_error (n : nat) : exn :=
  ValueError
    (if (n <? 6)%nat
     then "not enough values to unpack (expected 6, got " +:+ pretty n +:+ ")"
     else "too many values to unpack (expected 6)").

Definition draw_detection (W : World) (class_names : gmap Z string)
    (annotated_frame : loc) (det : det_row) : M () :=
  match det with
  | [x1; y1; x2; y2; score; class_id] =>
      let x1 := py_int x1 in
      let y1 := py_int y1 in
      let x2 := py_int x2 in
      let y2 := py_int y2 in
      let class_id := py_int class_id in
      let text := label_with_score class_names class_id score in
      cv2_rectangle W annotated_frame (x1, y1) (x2, y2) GREEN 2;;
      let '((text_width, text_height), baseline) :=
        getTextSize W text FONT_HERSHEY_SIMPLEX (6 # 10) 2 in
      let text_y := text_y_of y1 text_height baseline in
      cv2_rectangle W annotated_frame
        (x1, text_y - text_height - baseline) (x1 + text_width, text_y)
        GREEN (-1);;
      cv2_putText W annotated_frame text (x1, text_y - baseline / 2)
        FONT_HERSHEY_SIMPLEX (6 # 10) BLACK 2
  | _ => raise (unpack_error (length det))
  end.

(** [for i, det in enumerate(detections): ...]. *)
Fixpoint draw_detections (W : World) (class_names : gmap Z string)
    (annotated_frame : loc) (detections : list det_row) : M () :=
  match detections with
  | [] => mret ()
  | det :: rest =>
      draw_detection W class_names annotated_frame det;;
      draw_detections W class_names annotated_frame rest
  end.

(** Lines 83-109: copy, annotate and write one frame whose inference
    succeeded. *)
Definition annotate_and_write (W : World) (class_names : gmap Z string)
    (frame : loc) (boxes : option (list det_row)) : M () :=
  annotated_frame ← copy frame;
  detections ← match boxes with
               | Some data => mret data
               | None => raise (AttributeError
                   "'NoneType' object has no attribute 'data'")
               end;
  (if (0 <? length detections)%nat
   then draw_detections W class_names annotated_frame detections
   else mret ());;
  write annotated_frame.

(** *** The frame loop (lines 63-109)

    [src] is what the capture has not delivered yet: [cap.read()] hands
    out its first frame in a new array, and answers [(False, None)] once
    it is empty.  The handler of the [try] around [predict] ends in
    [continue]: it yields [None], and the rest of the body is skipped. *)
Fixpoint frame_loop (W : World) (model : Model) (total_frames : Z)
    (src : list Frame) (frame_count : Z) : M () :=
  match src with
  | [] =>
      emit (EvRead None);;
      log INFO MsgEndOfVideo
  | f :: src' =>
      frame ← alloc f;
      emit (EvRead (Some (frame, f)));;
      let frame_count := frame_count + 1 in
      (if frame_count `mod` 100 =? 0
       then log INFO (MsgProgress frame_count total_frames)
       else mret ());;
      results ← try_except
                  (r ← model_predict model frame_count frame; mret (Some r))
                  (λ e, log ERROR (MsgPredictError frame_count e);;
                        mret None);
      match results with
      | None => frame_loop W model total_frames src' frame_count
      | Some boxes =>
          annotate_and_write W (names model) frame boxes;;
          frame_loop W model total_frames src' frame_count
      end
  end.

(** *** [process_video] (lines 9-116) *)

Definition process_video (W : World)
    (input_video_path output_video_path model_path : string) : M () :=
  log INFO (MsgStarting input_video_path);;
  log INFO (MsgUsingModel model_path);;
  log INFO (MsgOutputTo output_video_path);;
  let device := if cuda_is_available W then "cuda" else "cpu" in
  log INFO (MsgUsingDevice device);;
  model ← try_except
            (emit (EvLoadModel model_path);;
             model ← lift (YOLO W model_path);
             lift (to_device model device);;
             log INFO (MsgModelLoaded (names model));;
             mret model)
            (λ e, log ERROR (MsgModelLoadError e);; raise e);
  emit (EvOpenSource input_video_path);;
  match VideoCapture W input_video_path with
  | None =>
      set_cap NotOpened;;
      log ERROR (MsgOpenError input_video_path);;
      raise (IOError ("Cannot open video file: " +:+ input_video_path))
  | Some (props, frames) =>
      set_cap Opened;;
      let frame_width := py_int (CAP_PROP_FRAME_WIDTH props) in
      let frame_height := py_int (CAP_PROP_FRAME_HEIGHT props) in
      let fps := CAP_PROP_FPS props in
      let total_frames := py_int (CAP_PROP_FRAME_COUNT props) in
      log INFO (MsgVideoProperties frame_width frame_height fps total_frames);;
      emit (EvOpenSink output_video_path);;
      if negb (VideoWriter W output_video_path "mp4v" fps
                 (frame_width, frame_height))
      then
        set_writer NotOpened;;
        log ERROR (MsgWriterError output_video_path);;
        emit EvReleaseSource;; set_cap Released;;
        raise (IOError ("Cannot initialize video writer for: "
                          +:+ output_video_path))
      else
        set_writer Opened;;
        log INFO MsgLoopStart;;
        frame_loop W model total_frames frames 0;;
        log INFO MsgFinished;;
        emit EvReleaseSource;; set_cap Released;;
        emit EvReleaseSink;; set_writer Released;;
        log INFO (MsgComplete output_video_path)
  end.

(** One call of [process_video] from a fresh state. *)
Definition run (W : World)
    (input_video_path output_video_path model_path : string)
  : State * result () :=
  process_video W input_video_path output_video_path model_path initial.

End VideoProcessor.

(** ** Reading the behaviour of a run *)

Module Observe.
Import VideoProcessor.
Local Open Scope Z_scope.

Definition is_read (e : event) : bool :=
  match e with EvRead (Some _) => true | _ => false end.
Definition is_write (e : event) : bool :=
  match e with EvWrite _ _ => true | _ => false end.
Definition is_predict_error (e : event) : bool :=
  match e with EvLog ERROR (MsgPredictError _ _) => true | _ => false end.
Definition is_draw (e : event) : bool :=
  match e with
  | EvRectangle _ _ _ _ _ | EvPutText _ _ _ _ => true
  | _ => false
  end.
(** Opening, reading or writing a video stream. *)
Definition is_frame_io (e : event) : bool :=
  match e with
  | EvOpenSource _ | EvOpenSink _ | EvRead _ | EvWrite _ _ => true
  | _ => false
  end.

Definition count (p : event → bool) (tr : list event) : nat :=
  length (List.filter p tr).

(** Frames the capture delivered, frames handed to the writer, and
    frames whose inference raised. *)
Definition frames_read (s : State) : nat := count is_read (trace s).
Definition frames_written (s : State) : nat := count is_write (trace s).
Definition inference_failures (s : State) : nat :=
  count is_predict_error (trace s).

(** The three drawing calls issued for one detection whose row holds
    [x1, y1, x2, y2, score, class_id]. *)
Definition drawing_of (W : World) (class_names : gmap Z string) (img : loc)
    (x1 y1 x2 y2 score class_id : Q) : list event :=
  let text := label_with_score class_names (PyNum.py_int class_id) score in
  let '((tw, th), bl) := getTextSize W text FONT_HERSHEY_SIMPLEX (6 # 10) 2 in
  let ty := text_y_of (PyNum.py_int y1) th bl in
  [ EvRectangle img (PyNum.py_int x1, PyNum.py_int y1)
                    (PyNum.py_int x2, PyNum.py_int y2) GREEN 2;
    EvRectangle img (PyNum.py_int x1, ty - th - bl)
                    (PyNum.py_int x1 + tw, ty) GREEN (-1);
    EvPutText img text (PyNum.py_int x1, ty - bl / 2) BLACK ].

Definition six : Type := (Q * Q * Q * Q * Q * Q)%type.
Definition row_of (d : six) : det_row :=
  let '(x1, y1, x2, y2, score, class_id) := d in
  [x1; y1; x2; y2; score; class_id].
Definition drawing_of_six (W : World) (class_names : gmap Z string)
    (img : loc) (d : six) : list event :=
  let '(x1, y1, x2, y2, score, class_id) := d in
  drawing_of W class_names img x1 y1 x2 y2 score class_id.

(** A box is valid in a frame of the given size when it is not degenerate
    and lies within the frame. *)
Definition valid_box (width height x1 y1 x2 y2 : Z) : bool :=
  (x1 <? x2) && (y1 <? y2) && (0 <=? x1) && (0 <=? y1)
    && (x2 <=? width) && (y2 <=? height).

(** The pixels a text of the given size covers when drawn at [org]
    (its bottom-left corner on the baseline): up by the text height, down
    by the baseline, right by the text width. *)
Definition text_extent (org : Point) (size : (Z * Z) * Z) : Point * Point :=
  let '((tw, th), bl) := size in
  ((org.1, org.2 - th), (org.1 + tw, org.2 + bl)).

Definition inside_frame (width height : Z) (box : Point * Point) : bool :=
  (0 <=? box.1.1) && (0 <=? box.1.2)
    && (box.2.1 <=? width) && (box.2.2 <=? height).

(** The device the driver selects, and the two outcomes of the [try]
    block that loads the model. *)
Definition device_of (W : World) : string :=
  if cuda_is_available W then "cuda" else "cpu".
Definition model_load_fails (W : World) (model_path : string) (e : exn)
  : Prop :=
  YOLO W model_path = Raise e
  ∨ ∃ model, YOLO W model_path = Ok model
             ∧ to_device model (device_of W) = Raise e.
Definition model_loads (W : World) (model_path : string) (model : Model)
  : Prop :=
  YOLO W model_path = Ok model ∧ to_device model (device_of W) = Ok ().

(** The frames the [EvWrite] events of a trace carry, in order. *)
Definition writes_of (tr : list event) : list Frame :=
  omap (λ e, match e with EvWrite _ f => Some f | _ => None end) tr.

(** The picture after the three drawing calls of one detection, and after
    those of a list of detections. *)
Definition render_detection (W : World) (class_names : gmap Z string)
    (f : Frame) (d : six) : Frame :=
  let '(x1, y1, x2, y2, score, class_id) := d in
  let text := label_with_score class_names (PyNum.py_int class_id) score in
  let '((tw, th), bl) := getTextSize W text FONT_HERSHEY_SIMPLEX (6 # 10) 2 in
  let ty := text_y_of (PyNum.py_int y1) th bl in
  let x1 := PyNum.py_int x1 in
  putText W
    (rectangle W
       (rectangle W f (x1, PyNum.py_int y1)
          (PyNum.py_int x2, PyNum.py_int y2) GREEN 2)
       (x1, ty - th - bl) (x1 + tw, ty) GREEN (-1))
    text (x1, ty - bl / 2) FONT_HERSHEY_SIMPLEX (6 # 10) BLACK 2.
Definition render (W : World) (class_names : gmap Z string)
    (f : Frame) (ds : list six) : Frame :=
  foldl (render_detection W class_names) f ds.

(** A drawing call on the array at [a]. *)
Definition draws_on (a : loc) (e : event) : Prop :=
  match e with
  | EvRectangle l _ _ _ _ | EvPutText l _ _ _ => l = a
  | _ => False
  end.

(** [s'] differs from [s] by drawing calls on the array at [a] only. *)
Definition only_draws (a : loc) (s s' : State) : Prop :=
  next_loc s' = next_loc s ∧ cap s' = cap s ∧
  video_writer s' = video_writer s ∧ sink s' = sink s ∧
  (∀ l, l ≠ a → heap s' !! l = heap s !! l) ∧
  ∃ evs, trace s' = trace s ++ evs ∧ Forall (draws_on a) evs.

(** An event that is neither a read, a prediction, a copy, a write nor an
    error: an [INFO] record or a drawing call on the array at [a]. *)
Definition silent (a : loc) (e : event) : Prop :=
  match e with
  | EvLog INFO _ => True
  | EvRectangle l _ _ _ _ | EvPutText l _ _ _ => l = a
  | _ => False
  end.

(** Every location an event mentions is [n] or later. *)
Definition event_from (n : loc) (e : event) : Prop :=
  match e with
  | EvRead (Some (l, _)) | EvPredict _ l | EvRectangle l _ _ _ _
  | EvPutText l _ _ _ | EvWrite l _ => (n ≤ l)%nat
  | EvCopy l l' => (n ≤ l)%nat ∧ (n ≤ l')%nat
  | _ => True
  end.

(** The progress record of every hundredth frame. *)
Definition progress_log (total_frames frame_count : Z) : list event :=
  if (frame_count + 1) `mod` 100 =? 0
  then [EvLog INFO (MsgProgress (frame_count + 1) total_frames)]
  else [].

(** The state reached in one iteration when [cap.read()] has delivered
    [f] and [predict] is about to answer. *)
Definition after_read (total_frames : Z) (f : Frame) (frame_count : Z)
    (s : State) : State :=
  mkState (<[next_loc s := f]> (heap s)) (S (next_loc s)) (cap s)
    (video_writer s) (sink s)
    (trace s ++ [EvRead (Some (next_loc s, f))]
       ++ progress_log total_frames frame_count
       ++ [EvPredict (frame_count + 1) (next_loc s)]).

(** How many of the frames [src], numbered from [frame_count + 1], make
    [predict] raise. *)
Fixpoint failing (model : Model) (src : list Frame) (frame_count : Z) : nat :=
  match src with
  | [] => 0%nat
  | f :: src' =>
      ((match predict model (frame_count + 1) f with
        | Raise _ => 1
        | Ok _ => 0
        end) + failing model src' (frame_count + 1))%nat
  end.

(** What the frame loop guarantees: it started in [s] on the frames [src],
    ended in [s'] with outcome [r], and issued the events [evs]. *)
Definition loop_post (model : Model) (frame_count : Z) (src : list Frame)
    (s s' : State) (r : result ()) (evs : list event) : Prop :=
  trace s' = trace s ++ evs ∧
  sink s' = sink s ++ writes_of evs ∧
  cap s' = cap s ∧ video_writer s' = video_writer s ∧
  (next_loc s ≤ next_loc s')%nat ∧
  (∀ l, (l < next_loc s)%nat → heap s' !! l = heap s !! l) ∧
  Forall (event_from (next_loc s)) evs ∧
  (count is_write evs + count is_predict_error evs ≤ count is_read evs)%nat ∧
  (count is_read evs ≤ length src)%nat ∧
  (r = Ok () →
     (count is_write evs + count is_predict_error evs = count is_read evs)%nat
     ∧ count is_read evs = length src
     ∧ count is_predict_error evs = failing model src frame_count) ∧
  (∀ l f, EvRead (Some (l, f)) ∈ evs → heap s' !! l = Some f) ∧
  (∀ n l f,
      EvRead (Some (l, f)) ∈ evs → EvPredict n l ∈ evs →
      predict model n f = Ok (Some []) →
      ∃ l', EvCopy l l' ∈ evs ∧ EvWrite l' f ∈ evs).

(** The records and calls that precede the opening of the writer. *)
Definition prologue (W : World) (i o m : string) (model : Model)
    (props : VideoProps) : list event :=
  [ EvLog INFO (MsgStarting i); EvLog INFO (MsgUsingModel m);
    EvLog INFO (MsgOutputTo o); EvLog INFO (MsgUsingDevice (device_of W));
    EvLoadModel m; EvLog INFO (MsgModelLoaded (names model));
    EvOpenSource i;
    EvLog INFO (MsgVideoProperties
                  (PyNum.py_int (CAP_PROP_FRAME_WIDTH props))
                  (PyNum.py_int (CAP_PROP_FRAME_HEIGHT props))
                  (CAP_PROP_FPS props)
                  (PyNum.py_int (CAP_PROP_FRAME_COUNT props)));
    EvOpenSink o ].

(** The state in which the frame loop starts. *)
Definition loop_entry (W : World) (i o m : string) (model : Model)
    (props : VideoProps) : State :=
  mkState ∅ 0%nat Opened Opened []
    (prologue W i o m model props ++ [EvLog INFO MsgLoopStart]).

(** Lines 111-116: release both streams after the loop. *)
Definition finish (o : string) (s : State) : State :=
  mkState (heap s) (next_loc s) Released Released (sink s)
    (trace s ++ [ EvLog INFO MsgFinished; EvReleaseSource; EvReleaseSink;
                  EvLog INFO (MsgComplete o) ]).

(** The writer opens with the codec, rate and size the driver passes. *)
Definition writer_opens (W : World) (o : string) (props : VideoProps) : bool :=
  VideoWriter W o "mp4v" (CAP_PROP_FPS props)
    (PyNum.py_int (CAP_PROP_FRAME_WIDTH props),
     PyNum.py_int (CAP_PROP_FRAME_HEIGHT props)).

Definition add_event (e : event) (s : State) : State :=
  mkState (heap s) (next_loc s) (cap s) (video_writer s) (sink s)
    (trace s ++ [e]).

End Observe.

(** ** A small world to run the driver in *)

Module Demo.
Import VideoProcessor.
Local Open Scope Z_scope.

Definition paint (f : Frame) (p : Point) (c : Color) : Frame :=
  if (0 <=? p.1) && (0 <=? p.2)
  then alter (alter (λ _, c) (Z.to_nat p.1)) (Z.to_nat p.2) f
  else f.

(** Stand-ins for the drawing routines: they mark one pixel. *)
Definition rectangle (f : Frame) (pt1 pt2 : Point) (c : Color) (t : Z)
  : Frame :=
  paint f pt1 c.
Definition putText (f : Frame) (text : string) (org : Point) (font : Z)
    (scale : Q) (c : Color) (t : Z) : Frame :=
  paint f org c.

(** A text 14 pixels high with a baseline of 6, 11 pixels per character. *)
Definition getTextSize (text : string) (font : Z) (scale : Q) (t : Z)
  : (Z * Z) * Z :=
  ((11 * Z.of_nat (String.length text), 14), 6).

Definition class_names : gmap Z string := {[ 0 := "stop"; 1 := "yield" ]}.

Definition model (answer : Z → Frame → result (option (list det_row)))
  : Model :=
  mkModel class_names (λ _, Ok ()) answer.

Definition props : VideoProps := mkProps 4 3 25 3.

(** The model is at ["best.pt"], the video at ["in.mp4"], and only
    ["out.mp4"] can be created. *)
Definition world (frames : list Frame)
    (answer : Z → Frame → result (option (list det_row))) : World :=
  mkWorld false
    (λ p, if decide (p = "best.pt") then Ok (model answer)
          else Raise FileNotFoundError)
    (λ p, if decide (p = "in.mp4") then Some (props, frames) else None)
    (λ p _ _ _, bool_decide (p = "out.mp4"))
    getTextSize rectangle putText.

Definition grey (v : Z) : Frame := replicate 3 (replicate 4 (v, v, v)).

Definition no_boxes : Z → Frame → result (option (list det_row)) :=
  λ _ _, Ok (Some []).
(** Inference fails on the second frame only. *)
Definition fails_on_second : Z → Frame → result (option (list det_row)) :=
  λ n _, if n =? 2 then Raise (LibraryError "inference") else Ok (Some []).
(** A result without boxes, as a classification model gives. *)
Definition without_boxes : Z → Frame → result (option (list det_row)) :=
  λ _ _, Ok None.
(** One detection per frame. *)
Definition one_box (d : det_row)
  : Z → Frame → result (option (list det_row)) :=
  λ _ _, Ok (Some [d]).

(** One detection, on the second frame only. *)
Definition only_on_second (d : det_row)
  : Z → Frame → result (option (list det_row)) :=
  λ n _, if n =? 2 then Ok (Some [d]) else Ok (Some []).

(** Three frames, inference fails on the second. *)
Definition three_frames : World :=
  world [grey 1; grey 2; grey 3] fails_on_second.

(** The same files, for a video with other properties. *)
Definition world_with (p : VideoProps) (frames : list Frame)
    (answer : Z → Frame → result (option (list det_row))) : World :=
  mkWorld false
    (λ q, if decide (q = "best.pt") then Ok (model answer)
          else Raise FileNotFoundError)
    (λ q, if decide (q = "in.mp4") then Some (p, frames) else None)
    (λ q _ _ _, bool_decide (q = "out.mp4"))
    getTextSize rectangle putText.

(** A video of 640 x 480 pictures, and one such picture. *)
Definition vga : VideoProps := mkProps 640 480 25 1.
Definition blank (width height : nat) (v : Z) : Frame :=
  replicate height (replicate width (v, v, v)).

End Demo.

(** ** [os.path.splitext], as the upload route uses it *)

Module PyPath.
Import PyStr.

(** The text after the last ["/"], the whole text when there is none. *)
Definition basename (p : string) : string :=
  match rsplit1_at "/" p with
  | Some (_, name) => name
  | None => p
  end.

(** Some character of [s] is not a dot. *)
Fixpoint has_non_dot (s : string) : bool :=
  match s with
  | EmptyString => false
  | String a s' => if decide (a = "."%char) then has_non_dot s' else true
  end.

(** [posixpath.splitext(p)]: the extension starts at the last dot, provided
    that dot comes after the last ["/"] and some character of the file name
    before it is not a dot; otherwise the extension is empty. *)
Definition splitext (p : string) : string * string :=
  match rsplit1_at "." p with
  | Some (root, after) =>
      if negb (contains "/" after) && has_non_dot (basename root)
      then (root, String "." after)
      else (p, EmptyString)
  | None => (p, EmptyString)
  end.

(** [s.startswith('.')]. *)
Definition startswith_dot (s : string) : bool :=
  match s with
  | String a _ => bool_decide (a = "."%char)
  | EmptyString => false
  end.

End PyPath.

(** ** app/routes.py: the upload route *)

Module Upload.
Import PyStr PyPath.

(** The uploaded file as the route sees it: its client-side name. *)
Record FileStorage : Type := mkFile { filename : string }.

Record Request : Type := mkRequest {
  method : string;
  files : gmap string FileStorage;
  url : string;
}.

(** What the route needs from werkzeug, [uuid], the configuration, the
    file system and the video pipeline.  [save] and [process_video] act on
    the set of existing paths and may raise; [os.remove] fails on a missing
    path and on the paths [remove_denied] marks. *)
Record App : Type := mkApp {
  secure_filename : string → string;
  uuid4_hex : string;
  UPLOAD_FOLDER : string;
  OUTPUT_FOLDER : string;
  MODEL_PATH : string;
  (** [", ".join(ALLOWED_EXTENSIONS)]: the order of a set is not fixed. *)
  joined_extensions : string;
  path_join : string → string → string;
  exn_str : exn → string;
  save : FileStorage → string → gset string → gset string * result ();
  process_video :
    string → string → string → gset string → gset string * result ();
  remove_denied : string → bool;
}.

Inductive response : Type :=
| Redirect (target : string)
| Render (template : string) (output_filename : option string).

(** One constructor per [logger.error] call of the route. *)
Inductive log_entry : Type :=
| ErrDeleteUpload (path : string) (e : exn)
| ErrProcessing (original_filename : string) (e : exn)
| ErrDeleteUploadOnError (path : string) (e : exn)
| ErrDeleteOutputOnError (path : string) (e : exn).

(** The files on disk, the flashed messages and the error log, oldest
    first. *)
Record Ctx : Type := mkCtx {
  fs : gset string;
  flashes : list (string * string);
  errors : list log_entry;
}.

Definition flash (text category : string) (c : Ctx) : Ctx :=
  mkCtx (fs c) (flashes c ++ [(text, category)]) (errors c).
Definition log_error (e : log_entry) (c : Ctx) : Ctx :=
  mkCtx (fs c) (flashes c) (errors c ++ [e]).
Definition set_fs (fs' : gset string) (c : Ctx) : Ctx :=
  mkCtx fs' (flashes c) (errors c).

(** A double quote, for the messages that quote a file name. *)
Definition dq : string := String "034" EmptyString.

(** [os.remove(p)]. *)
Definition os_remove (A : App) (p : string) (fs : gset string)
  : gset string * result () :=
  if bool_decide (p ∈ fs) then
    if remove_denied A p then (fs, Raise (IOError "Permission denied"))
    else (fs ∖ {[p]}, Ok ())
  else (fs, Raise FileNotFoundError).

(** The files left once [os.remove(p)] has been tried on [p]. *)
Definition removed (A : App) (p : string) (fs : gset string) : gset string :=
  if bool_decide (p ∈ fs) && negb (remove_denied A p) then fs ∖ {[p]} else fs.

(** [except OSError]: [IOError] is [OSError], [FileNotFoundError] is one of
    its subclasses. *)
Definition is_OSError (e : exn) : bool :=
  match e with
  | IOError _ | FileNotFoundError => true
  | _ => false
  end.

(** [try: os.remove(p)  except OSError as e: logger.error(...)]. *)
Definition remove_or_log (A : App) (entry : string → exn → log_entry)
    (p : string) (c : Ctx) : Ctx * result () :=
  match os_remove A p (fs c) with
  | (fs', Ok _) => (set_fs fs' c, Ok ())
  | (fs', Raise e) =>
      if is_OSError e then (log_error (entry p e) (set_fs fs' c), Ok ())
      else (set_fs fs' c, Raise e)
  end.

(** Lines 36-45: the name under which the upload is stored. *)
Definition unique_filename (A : App) (original_filename : string) : string :=
  let unique_id := String.substring 0 8 (uuid4_hex A) in
  let ext := (splitext original_filename).2 in
  let ext :=
    if negb (bool_decide (ext = EmptyString)) && negb (startswith_dot ext)
    then "." +:+ ext
    else ext in
  unique_id +:+ "_" +:+ (splitext original_filename).1 +:+ ext.

Definition upload_path (A : App) (original_filename : string) : string :=
  path_join A (UPLOAD_FOLDER A) (unique_filename A original_filename).
Definition output_filename (A : App) (original_filename : string) : string :=
  "processed_" +:+ unique_filename A original_filename.
Definition output_path (A : App) (original_filename : string) : string :=
  path_join A (OUTPUT_FOLDER A) (output_filename A original_filename).

(** Lines 72-87: the handler of [except Exception as e]. *)
Definition on_error (A : App) (request : Request) (original_filename : string)
    (e : exn) (c : Ctx) : Ctx * result response :=
  let c := log_error (ErrProcessing original_filename e) c in
  let c := flash ("An error occurred during processing: " +:+ exn_str A e)
             "danger" c in
  let up := upload_path A original_filename in
  let out := output_path A original_filename in
  match (if bool_decide (up ∈ fs c)
         then remove_or_log A ErrDeleteUploadOnError up c
         else (c, Ok ())) with
  | (c, Raise e') => (c, Raise e')
  | (c, Ok _) =>
      match (if bool_decide (out ∈ fs c)
             then remove_or_log A ErrDeleteOutputOnError out c
             else (c, Ok ())) with
      | (c, Raise e') => (c, Raise e')
      | (c, Ok _) => (c, Ok (Redirect (url request)))
      end
  end.

(** Lines 35-87: an accepted file is stored, processed and cleaned up. *)
Definition store_and_process (A : App) (request : Request)
    (file : FileStorage) (c : Ctx) : Ctx * result response :=
  let original_filename := secure_filename A (filename file) in
  let up := upload_path A original_filename in
  let out := output_path A original_filename in
  match save A file up (fs c) with
  | (fs1, Raise e) => on_error A request original_filename e (set_fs fs1 c)
  | (fs1, Ok _) =>
      let c := flash ("File " +:+ dq +:+ original_filename +:+ dq
                        +:+ " uploaded successfully. Starting processing...")
                 "info" (set_fs fs1 c) in
      match process_video A up out (MODEL_PATH A) (fs c) with
      | (fs2, Raise e) =>
          on_error A request original_filename e (set_fs fs2 c)
      | (fs2, Ok _) =>
          let c := flash ("Video processing complete for " +:+ dq
                            +:+ original_filename +:+ dq +:+ ".")
                     "success" (set_fs fs2 c) in
          match remove_or_log A ErrDeleteUpload up c with
          | (c, Raise e) => on_error A request original_filename e c
          | (c, Ok _) =>
              (c, Ok (Render "results.html"
                        (Some (output_filename A original_filename))))
          end
      end
  end.

(** [index()], lines 21-99. *)
Definition index (A : App) (request : Request) (c : Ctx)
  : Ctx * result response :=
  if bool_decide (method request = "POST") then
    match files request !! "file" with
    | None =>
        (flash "No file part in the request" "danger" c,
         Ok (Redirect (url request)))
    | Some file =>
        if bool_decide (filename file = EmptyString) then
          (flash "No selected file" "warning" c, Ok (Redirect (url request)))
        else
          let truthy := negb (bool_decide (filename file = EmptyString)) in
          match (if truthy then Config.allowed_file (filename file)
                 else Ok false) with
          | Raise e => (c, Raise e)
          | Ok true => store_and_process A request file c
          | Ok false =>
              let c :=
                if truthy
                then flash ("Invalid file type for " +:+ dq
                              +:+ secure_filename A (filename file) +:+ dq
                              +:+ ". Allowed types are: "
                              +:+ joined_extensions A)
                       "warning" c
                else flash "No file selected or file type not allowed."
                       "warning" c in
              (c, Ok (Redirect (url request)))
          end
    end
  else (c, Ok (Render "index.html" None)).

(** The request is a POST that carries a named file of an allowed type. *)
Definition accepted (request : Request) : option FileStorage :=
  if bool_decide (method request = "POST") then
    match files request !! "file" with
    | Some file =>
        if bool_decide (filename file = EmptyString) then None
        else match Config.allowed_file (filename file) with
             | Ok true => Some file
             | _ => None
             end
    | None => None
    end
  else None.

End Upload.

(** ** What a run is expected to write and to log *)

Module Expected.
Import VideoProcessor Observe.
Local Open Scope Z_scope.

(** A row of six values, as line 88 unpacks it. *)
Definition as_six (row : det_row) : option six :=
  match row with
  | [x1; y1; x2; y2; score; class_id] => Some (x1, y1, x2, y2, score, class_id)
  | _ => None
  end.

(** The annotated picture of a frame: every row drawn in turn on a copy;
    [None] when some row does not hold six values. *)
Definition annotate (W : World) (class_names : gmap Z string) (f : Frame)
    (rows : list det_row) : option Frame :=
  render W class_names f <$> mapM as_six rows.

(** The frames a loop over [src] hands to the writer, the frames being
    numbered from [frame_count + 1]: a frame whose inference raises is left
    out, the others are annotated; [None] when some answer carries no boxes
    or an ill-formed row. *)
Fixpoint expected_sink (W : World) (model : Model) (src : list Frame)
    (frame_count : Z) : option (list Frame) :=
  match src with
  | [] => Some []
  | f :: src' =>
      match predict model (frame_count + 1) f with
      | Raise _ => expected_sink W model src' (frame_count + 1)
      | Ok None => None
      | Ok (Some rows) =>
          match annotate W (names model) f rows with
          | None => None
          | Some g =>
              cons g <$> expected_sink W model src' (frame_count + 1)
          end
      end
  end.

(** The exception line 84 raises for a result without boxes, and those
    line 88 raises for a row that does not hold six values. *)
Definition no_boxes_error : exn :=
  AttributeError "'NoneType' object has no attribute 'data'".
Definition is_unpack_error (e : exn) : Prop :=
  ∃ n : nat, n ≠ 6%nat ∧ e = unpack_error n.

Definition is_progress (e : event) : bool :=
  match e with EvLog INFO (MsgProgress _ _) => true | _ => false end.

(** The frame numbers of the calls of [predict], in order. *)
Definition predict_numbers (tr : list event) : list Z :=
  omap (λ e, match e with EvPredict n _ => Some n | _ => None end) tr.

(** The frame numbers of the progress records, in order. *)
Definition progress_numbers (tr : list event) : list Z :=
  omap (λ e, match e with
             | EvLog INFO (MsgProgress n _) => Some n
             | _ => None
             end) tr.

End Expected.

(** ** The points OpenCV accepts

    The Python binding of OpenCV converts every coordinate of a point to a
    C [int] and raises when the value does not fit. *)

Module Accepted.
Import VideoProcessor Observe Expected.
Local Open Scope Z_scope.

Definition INT_MIN : Z := -2147483648.
Definition INT_MAX : Z := 2147483647.

Definition fits_int (z : Z) : bool := (INT_MIN <=? z) && (z <=? INT_MAX).
Definition point_fits (p : Point) : bool := fits_int p.1 && fits_int p.2.

(** Every point the three drawing calls of lines 98, 104 and 105 receive
    for this row is accepted. *)
Definition drawable (W : World) (class_names : gmap Z string) (d : six)
  : bool :=
  let '(x1, y1, x2, y2, score, class_id) := d in
  let text := label_with_score class_names (PyNum.py_int class_id) score in
  let '((tw, th), bl) := getTextSize W text FONT_HERSHEY_SIMPLEX (6 # 10) 2 in
  let ty := text_y_of (PyNum.py_int y1) th bl in
  point_fits (PyNum.py_int x1, PyNum.py_int y1)
    && point_fits (PyNum.py_int x2, PyNum.py_int y2)
    && point_fits (PyNum.py_int x1, ty - th - bl)
    && point_fits (PyNum.py_int x1 + tw, ty)
    && point_fits (PyNum.py_int x1, ty - bl / 2).

(** The same for a row as the detector gives it; a row that does not hold
    six values reaches no drawing call. *)
Definition row_drawable (W : World) (class_names : gmap Z string)
    (row : det_row) : bool :=
  match as_six row with
  | Some d => drawable W class_names d
  | None => true
  end.

(** Every row the detector answers on the frames [src], numbered from
    [frame_count + 1], is made of accepted points. *)
Fixpoint answers_drawable (W : World) (model : Model) (src : list Frame)
    (frame_count : Z) : bool :=
  match src with
  | [] => true
  | f :: src' =>
      match predict model (frame_count + 1) f with
      | Ok (Some rows) => forallb (row_drawable W (names model)) rows
      | _ => true
      end && answers_drawable W model src' (frame_count + 1)
  end.

End Accepted.

(** ** A small application to run the upload route in *)

Module DemoUpload.
Import Upload.

(** Saving creates the upload; the pipeline creates the output and then
    completes or raises; every deletion is allowed. *)
Definition app (pipeline_ok : bool) : App :=
  mkApp (λ name, name) "0123456789abcdef0123456789abcdef"
    "uploads" "outputs" "ml_model/best.pt" "mp4, avi, mov, mkv"
    (λ d n, d +:+ "/" +:+ n)
    (λ e, match e with
          | IOError msg | ValueError msg | AttributeError msg => msg
          | LibraryError what => what
          | IndexError => "list index out of range"
          | FileNotFoundError => "No such file or directory"
          end)
    (λ _ p fs, (fs ∪ {[p]}, Ok ()))
    (λ i o m fs,
       (fs ∪ {[o]},
        if pipeline_ok then Ok ()
        else Raise (IOError ("Cannot open video file: " +:+ i))))
    (λ _, false).

Definition post (name : string) : Request :=
  mkRequest "POST" {[ "file" := mkFile name ]} "/".

Definition start : Ctx := mkCtx ∅ [] [].

End DemoUpload.

(** * Properties *)

(** ** config.py *)

Section AllowedFile.
Import PyStr Config.

Lemma append_cons (a : ascii) (s t : string) :
  String a s +:+ t = String a (s +:+ t).
Proof. reflexivity. Qed.

Lemma append_nil (t : string) : "" +:+ t = t.
Proof. reflexivity. Qed.

Lemma rsplit1_at_none (sep : ascii) (s : string) :
  rsplit1_at sep s = None ↔ contains sep s = false.
Proof.
  induction s as [|a s IH]; simpl; [done|].
  destruct (rsplit1_at sep s) as [[pre post]|].
  - destruct IH as [_ IH]. case_decide; [done|].
    split; [done|]. intros Hc. specialize (IH Hc). done.
  - destruct IH as [IH _]. case_decide; [done|]. split; auto.
Qed.

Lemma rsplit1_at_some (sep : ascii) (s pre post : string) :
  rsplit1_at sep s = Some (pre, post) ↔
  s = pre +:+ String sep post ∧ contains sep post = false.
Proof.
  revert pre. induction s as [|a s IH]; intros pre; simpl.
  - split; [done|]. intros [H _]. by destruct pre.
  - destruct (rsplit1_at sep s) as [[pre' post']|] eqn:E.
    + split.
      * intros [= <- <-]. rewrite append_cons.
        destruct (IH pre') as [IH1 _].
        destruct (IH1 eq_refl) as [-> ?]. done.
      * intros [H Hpost]. destruct pre as [|b pre].
        -- rewrite append_nil in H. injection H as -> ->.
           apply rsplit1_at_none in Hpost. congruence.
        -- rewrite append_cons in H. injection H as -> ->.
           destruct (IH pre) as [_ IH2].
           specialize (IH2 (conj eq_refl Hpost)). congruence.
    + case_decide as Ha.
      * subst a. split.
        -- intros [= <- <-]. rewrite append_nil. split; [done|].
           by apply rsplit1_at_none.
        -- intros [H Hpost]. destruct pre as [|b pre].
           ++ rewrite append_nil in H. by injection H as ->.
           ++ rewrite append_cons in H. injection H as -> ->.
              destruct (IH pre) as [_ IH2].
              specialize (IH2 (conj eq_refl Hpost)). done.
      * split; [done|]. intros [H Hpost]. destruct pre as [|b pre].
        -- rewrite append_nil in H. by injection H as -> ->.
        -- rewrite append_cons in H. injection H as -> ->.
           destruct (IH pre) as [_ IH2].
           specialize (IH2 (conj eq_refl Hpost)). done.
Qed.

Lemma contains_append (sep : ascii) (pre post : string) :
  contains sep (pre +:+ String sep post) = true.
Proof.
  induction pre as [|a pre IH].
  - rewrite append_nil. simpl. by case_decide.
  - rewrite append_cons. simpl. by case_decide.
Qed.

Lemma elem_of_ALLOWED_EXTENSIONS (e : string) :
  e ∈ ALLOWED_EXTENSIONS ↔ e = "mp4" ∨ e = "avi" ∨ e = "mov" ∨ e = "mkv".
Proof.
  unfold ALLOWED_EXTENSIONS.
  rewrite !elem_of_union, !elem_of_singleton. tauto.
Qed.

(** C10. [allowed_file] never raises; it answers [True] exactly for the
    names that contain a dot and whose part after the last dot is, in
    lower case, one of mp4, avi, mov, mkv.  So the test ignores case
    ([".MP4"] passes) and a name without a dot is refused. *)
Theorem allowed_file_spec (filename : string) :
  (∃ b, allowed_file filename = Ok b) ∧
  (allowed_file filename = Ok true ↔
     contains "." filename = true ∧
     ∃ stem ext,
       filename = stem +:+ "." +:+ ext ∧ contains "." ext = false ∧
       (lower ext = "mp4" ∨ lower ext = "avi" ∨ lower ext = "mov"
        ∨ lower ext = "mkv")) ∧
  (contains "." filename = false → allowed_file filename = Ok false) ∧
  allowed_file "clip.MP4" = Ok true.
Proof.
  unfold allowed_file, rsplit1.
  destruct (contains "." filename) eqn:Hdot.
  - destruct (rsplit1_at "." filename) as [[pre post]|] eqn:E.
    + apply rsplit1_at_some in E as [Hf Hpost]. simpl.
      split; [eauto|]. split; [|split; [done|by vm_compute]].
      split.
      * intros [= Hb]. apply bool_decide_eq_true in Hb.
        apply elem_of_ALLOWED_EXTENSIONS in Hb.
        split; [done|]. by exists pre, post.
      * intros [_ (stem & ext & Hf' & Hext & Hin)].
        apply elem_of_ALLOWED_EXTENSIONS in Hin.
        assert (rsplit1_at "." filename = Some (stem, ext)) as E1
          by by apply rsplit1_at_some.
        assert (rsplit1_at "." filename = Some (pre, post)) as E2
          by by apply rsplit1_at_some.
        rewrite E1 in E2. injection E2 as -> ->.
        f_equal. by apply bool_decide_eq_true.
    + apply rsplit1_at_none in E. congruence.
  - split; [eauto|]. split; [|split; [done|by vm_compute]].
    split; [done|]. by intros [? _].
Qed.

End AllowedFile.

(** ** app/routes.py *)

Section Download.
Import Routes.
Variable W : Web.

Lemma download_file_unsafe (filename : string) :
  secure_filename W filename ≠ filename →
  download_file W filename =
    ([("Invalid filename.", "danger")], Ok (Redirect "main.index")).
Proof.
  intros Hne. unfold download_file.
  by rewrite bool_decide_eq_false_2.
Qed.

Lemma download_file_missing (filename : string) :
  secure_filename W filename = filename →
  path_exists W (path_join W (OUTPUT_FOLDER W) filename) = false →
  download_file W filename =
    ([("File not found: " +:+ filename, "danger")],
     Ok (Redirect "main.index")).
Proof.
  intros Hs He. unfold download_file.
  rewrite Hs, bool_decide_eq_true_2 by done. simpl. by rewrite He.
Qed.

(** C9. [download_file] serves a file only when [secure_filename] leaves
    the name unchanged and a file of that name exists in the output
    folder, and what it serves is that name from that folder; in every
    other case the answer is a redirect to the index page. *)
Theorem download_file_guarded (filename : string) :
  (∀ d n body,
      (download_file W filename).2 = Ok (Attachment d n body) →
      secure_filename W filename = filename ∧
      path_exists W (path_join W (OUTPUT_FOLDER W) filename) = true ∧
      d = OUTPUT_FOLDER W ∧ n = filename ∧ secure_filename W n = n ∧
      send_from_directory W (OUTPUT_FOLDER W) filename = Ok body) ∧
  (¬ (secure_filename W filename = filename ∧
      path_exists W (path_join W (OUTPUT_FOLDER W) filename) = true) →
   (download_file W filename).2 = Ok (Redirect "main.index") ∧
   ¬ served (download_file W filename)).
Proof.
  split.
  - intros d n body. unfold download_file.
    case_bool_decide as Hs; simpl; [|done]. rewrite Hs.
    destruct (path_exists W _) eqn:He; simpl; [|done].
    destruct (send_from_directory W _ _) as [b|e] eqn:Hsend.
    + intros [= <- <- <-]. by rewrite Hs.
    + by destruct e.
  - intros Hnot.
    destruct (decide (secure_filename W filename = filename)) as [Hs|Hs].
    + destruct (path_exists W (path_join W (OUTPUT_FOLDER W) filename))
        eqn:He; [by destruct Hnot|].
      rewrite download_file_missing by done. simpl. split; [done|].
      by intros (? & ? & ? & ?).
    + rewrite download_file_unsafe by done. simpl. split; [done|].
      by intros (? & ? & ? & ?).
Qed.

End Download.

(** ** Number formatting *)

Section Numbers.
Import PyNum.
Local Open Scope Z_scope.

(** The rounded value is within one half of the argument. *)
Lemma round_half_even_nearest (x : Q) :
  (Qabs (x - inject_Z (round_half_even x)) <= 1 # 2)%Q.
Proof.
  destruct x as [n d]. unfold round_half_even. simpl.
  pose proof (Z.div_mod n (Zpos d) ltac:(lia)) as Hdm.
  pose proof (Z.mod_pos_bound n (Zpos d) ltac:(lia)) as Hr.
  set (fl := n / Zpos d) in *. set (r := n `mod` Zpos d) in *.
  destruct (Z.compare_spec (2 * r) (Zpos d)) as [He|Hl|Hg];
    [destruct (Z.even fl)|..];
    unfold Qle, Qabs, Qminus, Qplus, Qopp, inject_Z; simpl;
    rewrite Pos.mul_1_r; nia.
Qed.

Lemma round_half_even_nonneg (x : Q) : 0 ≤ Qnum x → 0 ≤ round_half_even x.
Proof.
  destruct x as [n d]. unfold round_half_even. simpl. intros Hn.
  assert (0 ≤ n / Zpos d) by (apply Z.div_pos; lia).
  destruct (_ ?= _); [destruct (Z.even _)|..]; lia.
Qed.

Lemma digit_is_nat (n : Z) :
  0 ≤ n < 10 →
  Ascii.is_nat (pretty_N_char (Z.to_N n)) = Some (Z.to_nat n).
Proof.
  intros Hn.
  assert (n = 0 ∨ n = 1 ∨ n = 2 ∨ n = 3 ∨ n = 4 ∨ n = 5 ∨ n = 6 ∨ n = 7
          ∨ n = 8 ∨ n = 9) as Hc by lia.
  repeat (destruct Hc as [-> | Hc]; [reflexivity|]). by subst.
Qed.

(** [format_2f x] is the sign, the integer digits, a point and exactly two
    decimal digits of [h / 100], where [h] is the integer nearest to
    [100 * |x|]. *)
Lemma format_2f_shape (x : Q) :
  let h := round_half_even (Qabs x * 100) in
  0 ≤ h ∧
  (Qabs (Qabs x * 100 - inject_Z h) <= 1 # 2)%Q ∧
  ∃ d1 d2 : ascii,
    format_2f x = (if Qnum x <? 0 then "-" else "")
                    +:+ pretty (h / 100) +:+ "."
                    +:+ String d1 (String d2 EmptyString) ∧
    Ascii.is_nat d1 = Some (Z.to_nat ((h / 10) `mod` 10)) ∧
    Ascii.is_nat d2 = Some (Z.to_nat (h `mod` 10)).
Proof.
  intros h. split; [|split].
  - apply round_half_even_nonneg. destruct x as [n d]. simpl. lia.
  - apply round_half_even_nearest.
  - exists (pretty_N_char (Z.to_N ((h / 10) `mod` 10))),
           (pretty_N_char (Z.to_N (h `mod` 10))).
    split; [reflexivity|].
    split; apply digit_is_nat; apply Z.mod_pos_bound; lia.
Qed.

End Numbers.

(** ** app/processing/video_processor.py *)

Section Driver.
Import VideoProcessor Observe Accepted.
Local Open Scope Z_scope.

Ltac msimpl :=
  unfold mbind, M_bind, mret, M_ret, bind, ret, raise, lift, try_except,
    log, emit, set_cap, set_writer, alloc, load, update, append_sink;
  simpl.

(** Refute membership in an explicit list by comparing with each entry. *)
Ltac not_in_list :=
  let Hin := fresh "Hin" in
  intros Hin;
  repeat (apply elem_of_cons in Hin as [Hin|Hin]; [discriminate Hin|]);
  by apply elem_of_nil in Hin.

Variable W : World.

(** *** Failures before the loop *)

Lemma run_model_load_fails (i o m : string) (e : exn) :
  model_load_fails W m e →
  run W i o m =
    (mkState ∅ 0%nat NotCreated NotCreated []
       [EvLog INFO (MsgStarting i); EvLog INFO (MsgUsingModel m);
        EvLog INFO (MsgOutputTo o); EvLog INFO (MsgUsingDevice (device_of W));
        EvLoadModel m; EvLog ERROR (MsgModelLoadError e)],
     Raise e).
Proof.
  unfold run, process_video, device_of.
  intros [Hy | (model & Hy & Hto)]; msimpl; rewrite Hy; simpl; [done|].
  unfold device_of in Hto. by rewrite Hto.
Qed.

(** C5. When loading the model fails, [process_video] raises that error
    before any frame I/O: no video stream has been opened, read or
    written, and neither the capture nor the writer exists. *)
Theorem model_load_error_precedes_frame_io (i o m : string) (e : exn) :
  model_load_fails W m e →
  (run W i o m).2 = Raise e ∧
  cap (run W i o m).1 = NotCreated ∧
  video_writer (run W i o m).1 = NotCreated ∧
  sink (run W i o m).1 = [] ∧
  Forall (λ ev, is_frame_io ev = false) (trace (run W i o m).1).
Proof.
  intros H. rewrite (run_model_load_fails i o m e H). simpl.
  repeat split; try done. repeat constructor.
Qed.

(** C6. When the input video cannot be opened, no output is created: the
    writer is never built and nothing is written; and once the model has
    loaded, the error raised is the [IOError] of the capture. *)
Theorem unreadable_input_creates_no_output (i o m : string) :
  VideoCapture W i = None →
  video_writer (run W i o m).1 = NotCreated ∧
  sink (run W i o m).1 = [] ∧
  (EvOpenSink o ∉ trace (run W i o m).1) ∧
  Forall (λ ev, is_write ev = false) (trace (run W i o m).1) ∧
  (∀ model, model_loads W m model →
     (run W i o m).2 = Raise (IOError ("Cannot open video file: " +:+ i)) ∧
     cap (run W i o m).1 = NotOpened).
Proof.
  intros Hcap. unfold run, process_video, model_loads, device_of. msimpl.
  destruct (YOLO W m) as [model|e] eqn:Hy; simpl.
  - destruct (to_device model _) as [[]|e] eqn:Hto; simpl.
    + rewrite Hcap. simpl. split; [done|]. split; [done|].
      split; [|split].
      * not_in_list.
      * repeat constructor.
      * intros model' [[= <-] _]. done.
    + split; [done|]. split; [done|]. split; [|split].
      * not_in_list.
      * repeat constructor.
      * intros model' [[= <-] Hto']. congruence.
  - split; [done|]. split; [done|]. split; [|split].
    + not_in_list.
    + repeat constructor.
    + intros model' [[=] _].
Qed.

(** *** Drawing one detection, and a list of detections *)

Lemma draw_detection_six (class_names : gmap Z string) (a : loc) (d : six)
    (s : State) :
  draw_detection W class_names a (row_of d) s =
    (mkState (alter (λ f, render_detection W class_names f d) a (heap s))
       (next_loc s) (cap s) (video_writer s) (sink s)
       (trace s ++ drawing_of_six W class_names a d),
     Ok ()).
Proof.
  destruct d as [[[[[x1 y1] x2] y2] score] class_id].
  unfold draw_detection, row_of, drawing_of_six, drawing_of,
    render_detection, cv2_rectangle, cv2_putText.
  destruct (getTextSize W _ _ _ _) as [[tw th] bl].
  msimpl. rewrite !alter_alter_eq, <- !app_assoc. reflexivity.
Qed.

Lemma draw_detections_six (class_names : gmap Z string) (a : loc)
    (ds : list six) (s : State) :
  draw_detections W class_names a (row_of <$> ds) s =
    (mkState (alter (λ f, render W class_names f ds) a (heap s))
       (next_loc s) (cap s) (video_writer s) (sink s)
       (trace s ++ concat (drawing_of_six W class_names a <$> ds)),
     Ok ()).
Proof.
  revert s. induction ds as [|d ds IH]; intros s.
  - simpl. msimpl. rewrite app_nil_r, alter_id by done. by destruct s.
  - rewrite fmap_cons. cbn [draw_detections].
    change (draw_detection W class_names a (row_of d);;
            draw_detections W class_names a (row_of <$> ds))
      with (bind (draw_detection W class_names a (row_of d))
              (λ _, draw_detections W class_names a (row_of <$> ds))).
    unfold bind. rewrite draw_detection_six, IH. simpl.
    rewrite alter_alter_eq, <- app_assoc. reflexivity.
Qed.

Lemma drawing_of_six_length (class_names : gmap Z string) (a : loc) (d : six) :
  length (drawing_of_six W class_names a d) = 3%nat.
Proof.
  destruct d as [[[[[x1 y1] x2] y2] score] class_id].
  unfold drawing_of_six, drawing_of.
  by destruct (getTextSize W _ _ _ _) as [[tw th] bl].
Qed.

(** The three calls of one detection, with the coordinates spelled out. *)
Lemma draw_detection_trace (class_names : gmap Z string) (a : loc)
    (x1 y1 x2 y2 score class_id : Q) (s : State) :
  let text := label_with_score class_names (PyNum.py_int class_id) score in
  let size := getTextSize W text FONT_HERSHEY_SIMPLEX (6 # 10) 2 in
  let ty := text_y_of (PyNum.py_int y1) size.1.2 size.2 in
  (draw_detection W class_names a [x1; y1; x2; y2; score; class_id] s).2
    = Ok () ∧
  trace (draw_detection W class_names a
           [x1; y1; x2; y2; score; class_id] s).1 =
    trace s ++
      [ EvRectangle a (PyNum.py_int x1, PyNum.py_int y1)
          (PyNum.py_int x2, PyNum.py_int y2) GREEN 2;
        EvRectangle a (PyNum.py_int x1, ty - size.1.2 - size.2)
          (PyNum.py_int x1 + size.1.1, ty) GREEN (-1);
        EvPutText a text (PyNum.py_int x1, ty - size.2 / 2) BLACK ].
Proof.
  intros text size ty.
  change [x1; y1; x2; y2; score; class_id]
    with (row_of (x1, y1, x2, y2, score, class_id)).
  rewrite draw_detection_six. simpl. split; [done|]. f_equal.
  unfold drawing_of, ty, size, text.
  by destruct (getTextSize W _ _ _ _) as [[tw' th'] bl'].
Qed.

(** C3, as the code has it.  The loop over the detections makes no
    validity test and skips no row.  When the points of the rows are points
    OpenCV accepts, every row is drawn, whatever its box, degenerate or
    outside the frame: the outline rectangle at the truncated coordinates
    of the row, then the label background and the label text; and nothing
    is raised. *)
Theorem every_detection_is_drawn (class_names : gmap Z string) (a : loc)
    (ds : list six) (s : State) :
  Forall (λ d, drawable W class_names d = true) ds →
  let r := draw_detections W class_names a (row_of <$> ds) s in
  r.2 = Ok () ∧
  trace r.1 = trace s ++ concat (drawing_of_six W class_names a <$> ds) ∧
  length (List.filter is_draw (trace r.1)) =
    (length (List.filter is_draw (trace s)) + 3 * length ds)%nat ∧
  (∀ x1 y1 x2 y2 score class_id,
      (x1, y1, x2, y2, score, class_id) ∈ ds →
      EvRectangle a (PyNum.py_int x1, PyNum.py_int y1)
        (PyNum.py_int x2, PyNum.py_int y2) GREEN 2 ∈ trace r.1).
Proof.
  intros _ r. unfold r. rewrite draw_detections_six. simpl.
  split; [done|]. split; [done|]. split.
  - rewrite List.filter_app, length_app. f_equal.
    induction ds as [|d ds IH]; [done|].
    rewrite fmap_cons. simpl. rewrite List.filter_app, length_app, IH.
    assert (List.filter is_draw (drawing_of_six W class_names a d)
            = drawing_of_six W class_names a d) as ->.
    { destruct d as [[[[[x1 y1] x2] y2] score] class_id].
      unfold drawing_of_six, drawing_of.
      by destruct (getTextSize W _ _ _ _) as [[tw th] bl]. }
    rewrite drawing_of_six_length. lia.
  - intros x1 y1 x2 y2 score class_id Hin.
    apply elem_of_app. right.
    induction ds as [|d ds IH]; [by apply elem_of_nil in Hin|].
    rewrite fmap_cons. simpl. apply elem_of_app.
    apply elem_of_cons in Hin as [<-|Hin]; [left|right; by apply IH].
    unfold drawing_of_six, drawing_of.
    destruct (getTextSize W _ _ _ _) as [[tw th] bl].
    apply list_elem_of_here.
Qed.

(** The test of line 103 compares [y1 - 10] with the text height alone,
    while the background of line 104 reaches up by the text height and the
    baseline: for a box whose [y1 - 10] exceeds the text height by less
    than the baseline the label stays above the box, and its background
    starts above row 0. *)
Lemma label_test_omits_baseline (class_names : gmap Z string) (a : loc)
    (x1 y1 x2 y2 score class_id : Q) (s : State) :
  let text := label_with_score class_names (PyNum.py_int class_id) score in
  let size := getTextSize W text FONT_HERSHEY_SIMPLEX (6 # 10) 2 in
  let th := size.1.2 in
  let bl := size.2 in
  th < PyNum.py_int y1 - 10 < th + bl →
  EvRectangle a (PyNum.py_int x1, PyNum.py_int y1 - 10 - th - bl)
    (PyNum.py_int x1 + size.1.1, PyNum.py_int y1 - 10) GREEN (-1)
    ∈ trace (draw_detection W class_names a
               [x1; y1; x2; y2; score; class_id] s).1 ∧
  PyNum.py_int y1 - 10 - th - bl < 0.
Proof.
  intros text size th bl Hy.
  destruct (draw_detection_trace class_names a x1 y1 x2 y2 score class_id s)
    as [_ ->].
  fold text size th bl. split; [|lia].
  assert (text_y_of (PyNum.py_int y1) th bl = PyNum.py_int y1 - 10) as ->.
  { unfold text_y_of.
    destruct (Z.gtb_spec (PyNum.py_int y1 - 10) th); [done|lia]. }
  apply elem_of_app. right.
  apply list_elem_of_further, list_elem_of_here.
Qed.

(** C7. For every detection the text handed to [putText] is the class
    name, a colon and a space, and the score with exactly two decimals
    (the two digits of the integer nearest to a hundred times the score);
    the class name is the entry of the name table, or [Class_<id>] when
    the table has none, and nothing is raised. *)
Theorem label_text_spec (class_names : gmap Z string) (a : loc)
    (x1 y1 x2 y2 score class_id : Q) (s : State) :
  let r := draw_detection W class_names a
             [x1; y1; x2; y2; score; class_id] s in
  let id := PyNum.py_int class_id in
  ∃ (name : string) (pt1 pt2 pt3 pt4 org : Point) (h : Z) (d1 d2 : ascii),
    r.2 = Ok () ∧
    trace r.1 =
      trace s ++
        [ EvRectangle a pt1 pt2 GREEN 2; EvRectangle a pt3 pt4 GREEN (-1);
          EvPutText a (name +:+ ": " +:+ PyNum.format_2f score) org BLACK ] ∧
    match class_names !! id with
    | Some n => name = n
    | None => name = "Class_" +:+ pretty id
    end ∧
    PyNum.format_2f score =
      (if Qnum score <? 0 then "-" else "") +:+ pretty (h / 100) +:+ "."
        +:+ String d1 (String d2 EmptyString) ∧
    0 ≤ h ∧
    (Qabs (Qabs score * 100 - inject_Z h) <= 1 # 2)%Q ∧
    Ascii.is_nat d1 = Some (Z.to_nat ((h / 10) `mod` 10)) ∧
    Ascii.is_nat d2 = Some (Z.to_nat (h `mod` 10)).
Proof.
  intros r id.
  destruct (format_2f_shape score) as (Hh & Hnear & d1 & d2 & Hfmt & H1 & H2).
  pose proof (draw_detection_trace class_names a x1 y1 x2 y2 score class_id s)
    as (Hok & Htr).
  eexists (class_label class_names id), _, _, _, _, _, _, d1, d2.
  split; [exact Hok|split; [exact Htr|]].
  split; [unfold class_label; by destruct (class_names !! id)|].
  split; [exact Hfmt|]. done.
Qed.


(** *** One iteration of the frame loop *)

Lemma frame_loop_nil (model : Model) (tf : Z) (n : Z) (s : State) :
  frame_loop W model tf [] n s =
    (add_event (EvLog INFO MsgEndOfVideo) (add_event (EvRead None) s), Ok ()).
Proof. reflexivity. Qed.

Lemma frame_loop_cons (model : Model) (tf : Z) (f : Frame)
    (src : list Frame) (n : Z) (s : State) :
  frame_loop W model tf (f :: src) n s =
    match predict model (n + 1) f with
    | Raise e =>
        frame_loop W model tf src (n + 1)
          (add_event (EvLog ERROR (MsgPredictError (n + 1) e))
             (after_read tf f n s))
    | Ok boxes =>
        match annotate_and_write W (names model) (next_loc s) boxes
                (after_read tf f n s) with
        | (s2, Ok _) => frame_loop W model tf src (n + 1) s2
        | (s2, Raise e) => (s2, Raise e)
        end
    end.
Proof.
  cbn [frame_loop].
  unfold model_predict, after_read, progress_log, add_event. msimpl.
  destruct ((n + 1) `mod` 100 =? 0); simpl;
    rewrite lookup_insert_eq; simpl;
    destruct (predict model (n + 1) f) as [boxes|e]; simpl;
    rewrite <- ?app_assoc; simpl; reflexivity.
Qed.


(** *** What drawing can change, for rows of any length *)

Lemma only_draws_refl (a : loc) (s : State) : only_draws a s s.
Proof.
  unfold only_draws. repeat split; try done.
  exists []. by rewrite app_nil_r.
Qed.

Lemma only_draws_trans (a : loc) (s1 s2 s3 : State) :
  only_draws a s1 s2 → only_draws a s2 s3 → only_draws a s1 s3.
Proof.
  intros (Hn & Hc & Hw & Hk & Hh & evs & Ht & Hd)
         (Hn' & Hc' & Hw' & Hk' & Hh' & evs' & Ht' & Hd').
  unfold only_draws. repeat split; try congruence.
  - intros l Hl. rewrite Hh', Hh; done.
  - exists (evs ++ evs'). rewrite Ht', Ht, app_assoc. split; [done|].
    by apply Forall_app.
Qed.

Lemma draw_detection_only_draws (class_names : gmap Z string) (a : loc)
    (det : det_row) (s : State) :
  only_draws a s (draw_detection W class_names a det s).1.
Proof.
  destruct det as [|x1 [|y1 [|x2 [|y2 [|score [|class_id [|extra det]]]]]]];
    try apply only_draws_refl.
  change [x1; y1; x2; y2; score; class_id]
    with (row_of (x1, y1, x2, y2, score, class_id)).
  rewrite draw_detection_six. unfold only_draws. simpl.
  repeat split; try done.
  - intros l Hl. by rewrite lookup_alter_ne.
  - eexists. split; [done|].
    unfold drawing_of. destruct (getTextSize W _ _ _ _) as [[tw th] bl].
    repeat constructor.
Qed.

Lemma draw_detections_only_draws (class_names : gmap Z string) (a : loc)
    (dets : list det_row) (s : State) :
  only_draws a s (draw_detections W class_names a dets s).1.
Proof.
  revert s. induction dets as [|det dets IH]; intros s.
  - apply only_draws_refl.
  - cbn [draw_detections].
    change (draw_detection W class_names a det;;
            draw_detections W class_names a dets)
      with (bind (draw_detection W class_names a det)
              (λ _, draw_detections W class_names a dets)).
    unfold bind.
    pose proof (draw_detection_only_draws class_names a det s) as H1.
    destruct (draw_detection W class_names a det s) as [s1 [[]|e]]; [|done].
    eapply only_draws_trans; [exact H1|]. apply IH.
Qed.


(** *** Copy, annotate and write *)

Lemma annotate_and_write_facts (class_names : gmap Z string) (frame : loc)
    (boxes : option (list det_row)) (f : Frame) (s : State) :
  heap s !! frame = Some f →
  let r := annotate_and_write W class_names frame boxes s in
  let a := next_loc s in
  next_loc r.1 = S a ∧ cap r.1 = cap s ∧ video_writer r.1 = video_writer s ∧
  (∀ l, (l < a)%nat → heap r.1 !! l = heap s !! l) ∧
  ∃ draws, Forall (draws_on a) draws ∧
    match r.2 with
    | Ok _ =>
        ∃ g, trace r.1 = trace s ++ [EvCopy frame a] ++ draws ++ [EvWrite a g]
             ∧ sink r.1 = sink s ++ [g]
             ∧ (boxes = Some [] → g = f ∧ draws = [])
    | Raise _ =>
        trace r.1 = trace s ++ [EvCopy frame a] ++ draws
        ∧ sink r.1 = sink s ∧ boxes ≠ Some []
    end.
Proof.
  intros Hf r a. unfold r, a, annotate_and_write, copy, write. msimpl.
  rewrite Hf. simpl.
  destruct boxes as [dets|]; simpl.
  - destruct (0 <? length dets)%nat eqn:Hlen.
    + set (s1 := mkState _ _ _ _ _ _).
      pose proof (draw_detections_only_draws class_names (next_loc s) dets s1)
        as (Hn & Hc & Hw & Hk & Hh & evs & Ht & Hd).
      destruct (draw_detections W class_names (next_loc s) dets s1)
        as [s2 [[]|e]]; simpl in *.
      * rewrite Hn, Hc, Hw. repeat split; try done.
        -- intros l Hl. rewrite Hh by lia. apply lookup_insert_ne. lia.
        -- exists evs. split; [done|].
           exists (default [] (heap s2 !! next_loc s)). rewrite Ht, Hk.
           rewrite <- !app_assoc. split; [done|]. split; [done|].
           intros [= ->]. done.
      * rewrite Hn, Hc, Hw. repeat split; try done.
        -- intros l Hl. rewrite Hh by lia. apply lookup_insert_ne. lia.
        -- exists evs. split; [done|]. rewrite Ht, Hk.
           rewrite <- !app_assoc. split; [done|]. split; [done|].
           intros [= ->]. done.
    + repeat split; try done.
      * intros l Hl. apply lookup_insert_ne. lia.
      * exists []. split; [done|]. exists f. simpl.
        rewrite lookup_insert_eq, <- !app_assoc. done.
  - repeat split; try done.
    + intros l Hl. apply lookup_insert_ne. lia.
    + exists []. split; [done|]. done.
Qed.


(** *** Lists of events *)

Lemma count_app (p : event → bool) (l1 l2 : list event) :
  count p (l1 ++ l2) = (count p l1 + count p l2)%nat.
Proof. unfold count. by rewrite List.filter_app, length_app. Qed.

Lemma writes_of_app (l1 l2 : list event) :
  writes_of (l1 ++ l2) = writes_of l1 ++ writes_of l2.
Proof. apply omap_app. Qed.

Lemma draws_on_silent (a : loc) (evs : list event) :
  Forall (draws_on a) evs → Forall (silent a) evs.
Proof.
  intros H. eapply Forall_impl; [exact H|].
  by intros [[] ?| | | | | | | | | | | ].
Qed.

Lemma silent_count (p : event → bool) (a : loc) (evs : list event) :
  (∀ e, silent a e → p e = false) →
  Forall (silent a) evs → count p evs = 0%nat.
Proof.
  intros Hp. induction 1 as [|e evs He _ IH]; [done|].
  unfold count in *. simpl. by rewrite (Hp e He).
Qed.

Lemma silent_not_read (a : loc) (e : event) : silent a e → is_read e = false.
Proof. by destruct e as [[] ?| | | | | | | | | | | ]. Qed.
Lemma silent_not_write (a : loc) (e : event) : silent a e → is_write e = false.
Proof. by destruct e as [[] ?| | | | | | | | | | | ]. Qed.
Lemma silent_not_error (a : loc) (e : event) :
  silent a e → is_predict_error e = false.
Proof. by destruct e as [[] ?| | | | | | | | | | | ]. Qed.

Lemma silent_writes_of (a : loc) (evs : list event) :
  Forall (silent a) evs → writes_of evs = [].
Proof.
  induction 1 as [|e evs He _ IH]; [done|].
  unfold writes_of in *.
  by destruct e as [[] ?| | | | | | | | | | | ].
Qed.

Lemma silent_event_from (n a : loc) (evs : list event) :
  (n ≤ a)%nat → Forall (silent a) evs → Forall (event_from n) evs.
Proof.
  intros Hn H. eapply Forall_impl; [exact H|].
  intros [[] ?| | | | | | | | | | | ]; simpl; try done; lia.
Qed.

Lemma event_from_mono (n n' : loc) (evs : list event) :
  (n ≤ n')%nat → Forall (event_from n') evs → Forall (event_from n) evs.
Proof.
  intros Hn H. eapply Forall_impl; [exact H|].
  intros [| | | |[[? ?]|]| | | | | | | ]; simpl; try done; lia.
Qed.


(** *** The frame loop as a whole *)

Lemma silent_in (a : loc) (evs : list event) (e : event) :
  Forall (silent a) evs → e ∈ evs → silent a e.
Proof. intros H. by apply Forall_forall. Qed.

Lemma event_from_in (n : loc) (evs : list event) (e : event) :
  Forall (event_from n) evs → e ∈ evs → event_from n e.
Proof. intros H. by apply Forall_forall. Qed.

Lemma silent_counts (a : loc) (evs : list event) :
  Forall (silent a) evs →
  count is_read evs = 0%nat ∧ count is_write evs = 0%nat
  ∧ count is_predict_error evs = 0%nat.
Proof.
  intros H. split_and!; eapply silent_count; try exact H.
  - apply silent_not_read.
  - apply silent_not_write.
  - apply silent_not_error.
Qed.

(** Case analysis on membership in a list built from explicit events,
    silent events and events from a later location. *)
Ltac inv_in :=
  repeat match goal with
  | H : _ ∈ _ ++ _ |- _ => apply elem_of_app in H as [H|H]
  | H : _ ∈ _ :: _ |- _ => apply elem_of_cons in H as [H|H]
  | H : _ ∈ [] |- _ => by apply elem_of_nil in H
  | H : ?e ∈ ?l, Hs : Forall (silent _) ?l |- _ =>
      by destruct (silent_in _ _ _ Hs H)
  | H : ?e ∈ ?l, Hs : Forall (event_from ?n) ?l |- _ =>
      lazymatch goal with
      | _ : event_from n e |- _ => fail
      | _ => pose proof (event_from_in _ _ _ Hs H)
      end
  | H : @eq event _ _ |- _ => first [discriminate H | simplify_eq]
  end;
  repeat match goal with
  | H : event_from _ _ |- _ => progress simpl in H
  end.

Ltac list_norm := repeat progress (rewrite <- ?app_assoc; cbn [app]).

(** Membership in a list one of whose segments is the list of a
    hypothesis. *)
Ltac in_tail :=
  list_norm;
  repeat first [ assumption
               | apply list_elem_of_here
               | apply list_elem_of_further
               | apply elem_of_app; left; assumption
               | apply elem_of_app; right ].

Lemma frame_loop_post (model : Model) (tf : Z) (src : list Frame) (n : Z)
    (s : State) :
  ∃ evs, loop_post model n src s (frame_loop W model tf src n s).1
           (frame_loop W model tf src n s).2 evs.
Proof.
  revert n s. induction src as [|f src IH]; intros n s.
  - rewrite frame_loop_nil. exists [EvRead None; EvLog INFO MsgEndOfVideo].
    unfold loop_post, add_event. simpl. rewrite <- app_assoc, app_nil_r.
    split_and!; try done.
    + repeat constructor.
    + intros l f Hin. inv_in.
    + intros n' l f Hin. inv_in.
  - rewrite frame_loop_cons. cbn [failing].
    set (prog := progress_log tf n).
    assert (Forall (silent (next_loc s)) prog) as Hprog
      by (unfold prog, progress_log; destruct (_ =? _); repeat constructor).
    destruct (silent_counts _ _ Hprog) as (Hp1 & Hp2 & Hp3).
    pose proof (silent_writes_of _ _ Hprog) as Hp4.
    pose proof (silent_event_from (next_loc s) _ _ (le_n _) Hprog) as Hp5.
    destruct (predict model (n + 1) f) as [boxes|e0] eqn:Hpred.
    + pose proof (annotate_and_write_facts (names model) (next_loc s) boxes f
                    (after_read tf f n s)) as Hann.
      destruct Hann as (Hn1 & Hc1 & Hw1 & Hh1 & draws & Hdraws & Hres);
        [by apply lookup_insert_eq|].
      apply draws_on_silent in Hdraws.
      destruct (silent_counts _ _ Hdraws) as (Hd1 & Hd2 & Hd3).
      pose proof (silent_writes_of _ _ Hdraws) as Hd4.
      assert (Forall (event_from (next_loc s)) draws) as Hd5
        by (eapply silent_event_from; [|exact Hdraws]; simpl; lia).
      destruct (annotate_and_write W (names model) (next_loc s) boxes _)
        as [s2 [[]|e1]].
      * destruct Hres as (g & Ht2 & Hk2 & Hg).
        destruct (IH (n + 1) s2)
          as (evs2 & Ht & Hk & Hc & Hw & Hn & Hh & Hfrom & Hle1 & Hle2 & Hok
              & Hrd & Hempty).
        destruct (frame_loop W model tf src (n + 1) s2) as [s' r].
        simpl in *. fold prog in Ht2. clearbody prog.
        exists ([EvRead (Some (next_loc s, f))] ++ prog
                  ++ [EvPredict (n + 1) (next_loc s);
                      EvCopy (next_loc s) (S (next_loc s))] ++ draws
                  ++ [EvWrite (S (next_loc s)) g] ++ evs2).
        unfold loop_post. cbn [failing]. rewrite Hpred.
        rewrite !count_app, !writes_of_app, Hp1, Hp2, Hp3, Hp4, Hd1, Hd2, Hd3,
          Hd4.
        unfold count in *. simpl.
        split_and!.
        -- rewrite Ht, Ht2. list_norm. done.
        -- rewrite Hk, Hk2. list_norm. done.
        -- congruence.
        -- congruence.
        -- lia.
        -- intros l Hl. rewrite Hh, Hh1 by lia. apply lookup_insert_ne. lia.
        -- constructor; [simpl; lia|]. apply Forall_app. split; [done|].
           constructor; [simpl; lia|]. constructor; [simpl; lia|].
           apply Forall_app. split; [done|].
           constructor; [simpl; lia|].
           eapply event_from_mono; [|exact Hfrom]. lia.
        -- lia.
        -- lia.
        -- intros ->. destruct (Hok eq_refl) as (? & ? & ?). lia.
        -- intros l f' Hin. inv_in.
           ++ rewrite Hh, Hh1 by lia. apply lookup_insert_eq.
           ++ by apply Hrd.
        -- intros n' l f' Hin Hin' Hpe.
           inv_in; try congruence; try lia.
           ++ rewrite Hpred in Hpe. injection Hpe as ->.
              destruct (Hg eq_refl) as [-> ->].
              exists (S (next_loc s)). split; in_tail.
           ++ destruct (Hempty n' l f') as (l' & Hcp & Hwr); try done.
              exists l'. split; in_tail.
      * destruct Hres as (Ht2 & Hk2 & Hne).
        simpl in *. fold prog in Ht2. clearbody prog.
        exists ([EvRead (Some (next_loc s, f))] ++ prog
                  ++ [EvPredict (n + 1) (next_loc s);
                      EvCopy (next_loc s) (S (next_loc s))] ++ draws).
        unfold loop_post.
        rewrite !count_app, !writes_of_app, Hp1, Hp2, Hp3, Hp4, Hd1, Hd2, Hd3,
          Hd4.
        unfold count in *. simpl.
        split_and!; try done.
        -- rewrite Ht2. list_norm. done.
        -- by rewrite Hk2, app_nil_r.
        -- lia.
        -- intros l Hl. rewrite Hh1 by lia. apply lookup_insert_ne. lia.
        -- constructor; [simpl; lia|]. apply Forall_app. split; [done|].
           constructor; [simpl; lia|]. constructor; [simpl; lia|]. done.
        -- lia.
        -- lia.
        -- intros l f' Hin. inv_in.
           rewrite Hh1 by lia. apply lookup_insert_eq.
        -- intros n' l f' Hin Hin' Hpe. inv_in; congruence.
    + destruct (IH (n + 1)
                  (add_event (EvLog ERROR (MsgPredictError (n + 1) e0))
                     (after_read tf f n s)))
        as (evs2 & Ht & Hk & Hc & Hw & Hn & Hh & Hfrom & Hle1 & Hle2 & Hok
            & Hrd & Hempty).
      destruct (frame_loop W model tf src (n + 1) _) as [s' r].
      simpl in *. fold prog in Ht. clearbody prog.
      exists ([EvRead (Some (next_loc s, f))] ++ prog
                ++ [EvPredict (n + 1) (next_loc s);
                    EvLog ERROR (MsgPredictError (n + 1) e0)] ++ evs2).
      unfold loop_post. cbn [failing]. rewrite Hpred.
      rewrite !count_app, !writes_of_app, Hp1, Hp2, Hp3, Hp4.
      unfold count in *. simpl.
      split_and!; try done.
      * rewrite Ht. list_norm. done.
      * lia.
      * intros l Hl. rewrite Hh by lia. apply lookup_insert_ne. lia.
      * constructor; [simpl; lia|]. apply Forall_app. split; [done|].
        constructor; [simpl; lia|]. constructor; [done|].
        eapply event_from_mono; [|exact Hfrom]. lia.
      * lia.
      * lia.
      * intros ->. destruct (Hok eq_refl) as (? & ? & ?). lia.
      * intros l f' Hin. inv_in.
        -- rewrite Hh by lia. apply lookup_insert_eq.
        -- by apply Hrd.
      * intros n' l f' Hin Hin' Hpe.
        inv_in; try congruence; try lia.
        destruct (Hempty n' l f') as (l' & Hcp & Hwr); try done.
        exists l'. split; in_tail.
Qed.

(** *** The paths through [process_video] *)

Lemma run_main (i o m : string) (model : Model) (props : VideoProps)
    (frames : list Frame) :
  model_loads W m model → VideoCapture W i = Some (props, frames) →
  writer_opens W o props = true →
  run W i o m =
    match frame_loop W model (PyNum.py_int (CAP_PROP_FRAME_COUNT props))
            frames 0 (loop_entry W i o m model props) with
    | (s1, Ok _) => (finish o s1, Ok ())
    | (s1, Raise e) => (s1, Raise e)
    end.
Proof.
  unfold model_loads, writer_opens, device_of, run, process_video.
  intros [Hy Hto] Hcap Hwr. msimpl. rewrite Hy. simpl. rewrite Hto. simpl.
  rewrite Hcap. simpl. rewrite Hwr. simpl.
  unfold loop_entry, prologue, device_of. simpl.
  destruct (frame_loop W model _ frames 0 _) as [s1 [[]|e]]; [|done].
  unfold finish. simpl. list_norm. done.
Qed.

Lemma run_sink_fails (i o m : string) (model : Model) (props : VideoProps)
    (frames : list Frame) :
  model_loads W m model → VideoCapture W i = Some (props, frames) →
  writer_opens W o props = false →
  run W i o m =
    (mkState ∅ 0%nat Released NotOpened []
       (prologue W i o m model props
          ++ [EvLog ERROR (MsgWriterError o); EvReleaseSource]),
     Raise (IOError ("Cannot initialize video writer for: " +:+ o))).
Proof.
  unfold model_loads, writer_opens, device_of, run, process_video.
  intros [Hy Hto] Hcap Hwr. msimpl. rewrite Hy. simpl. rewrite Hto. simpl.
  rewrite Hcap. simpl. by rewrite Hwr.
Qed.

Lemma run_open_fails (i o m : string) (model : Model) :
  model_loads W m model → VideoCapture W i = None →
  run W i o m =
    (mkState ∅ 0%nat NotOpened NotCreated []
       [ EvLog INFO (MsgStarting i); EvLog INFO (MsgUsingModel m);
         EvLog INFO (MsgOutputTo o); EvLog INFO (MsgUsingDevice (device_of W));
         EvLoadModel m; EvLog INFO (MsgModelLoaded (names model));
         EvOpenSource i; EvLog ERROR (MsgOpenError i) ],
     Raise (IOError ("Cannot open video file: " +:+ i))).
Proof.
  unfold model_loads, device_of, run, process_video.
  intros [Hy Hto] Hcap. msimpl. rewrite Hy. simpl. rewrite Hto. simpl.
  by rewrite Hcap.
Qed.

(** Every run takes one of four paths. *)
Lemma run_cases (i o m : string) :
  (∃ e, model_load_fails W m e)
  ∨ (∃ model, model_loads W m model ∧ VideoCapture W i = None)
  ∨ (∃ model props frames,
        model_loads W m model ∧ VideoCapture W i = Some (props, frames)
        ∧ writer_opens W o props = false)
  ∨ (∃ model props frames,
        model_loads W m model ∧ VideoCapture W i = Some (props, frames)
        ∧ writer_opens W o props = true).
Proof.
  unfold model_load_fails, model_loads.
  destruct (YOLO W m) as [model|e] eqn:Hy; [|left; eauto].
  destruct (to_device model (device_of W)) as [[]|e] eqn:Hto;
    [|left; exists e; right; eauto].
  right. destruct (VideoCapture W i) as [[props frames]|] eqn:Hcap;
    [|left; eauto].
  right. destruct (writer_opens W o props) eqn:Hwr;
    [right|left]; exists model, props, frames; eauto.
Qed.

Lemma writes_of_length (evs : list event) :
  length (writes_of evs) = count is_write evs.
Proof.
  unfold writes_of, count. induction evs as [|e evs IH]; [done|].
  destruct e; simpl; try exact IH. f_equal. exact IH.
Qed.

(** C1, as the code has it.  In a run that completes, the frames written
    are the frames read less those whose inference raised: such a frame is
    recorded in the log and is neither annotated nor written, and the loop
    goes on with the next frame. *)
Theorem written_frames_count (i o m : string) :
  (run W i o m).2 = Ok () →
  (frames_written (run W i o m).1 + inference_failures (run W i o m).1
   = frames_read (run W i o m).1)%nat ∧
  length (sink (run W i o m).1) = frames_written (run W i o m).1 ∧
  ∃ model props frames,
    model_loads W m model ∧ VideoCapture W i = Some (props, frames) ∧
    frames_read (run W i o m).1 = length frames ∧
    inference_failures (run W i o m).1 = failing model frames 0.
Proof.
  destruct (run_cases i o m)
    as [[e Hf] | [(model & Hl & Hc) | [(model & props & frames & Hl & Hc & Hw)
       | (model & props & frames & Hl & Hc & Hw)]]].
  - by rewrite (run_model_load_fails i o m e Hf).
  - by rewrite (run_open_fails i o m model Hl Hc).
  - by rewrite (run_sink_fails i o m model props frames Hl Hc Hw).
  - rewrite (run_main i o m model props frames Hl Hc Hw).
    destruct (frame_loop_post model
                (PyNum.py_int (CAP_PROP_FRAME_COUNT props)) frames 0
                (loop_entry W i o m model props))
      as (evs & Ht & Hk & _ & _ & _ & _ & _ & _ & _ & Hok & _ & _).
    destruct (frame_loop W model _ frames 0 _) as [s1 [[]|e]]; [|done].
    intros _. simpl in *. destruct (Hok eq_refl) as (Hcnt & Hrd & Herr).
    unfold frames_written, inference_failures, frames_read. simpl.
    rewrite Ht, Hk, !count_app, ?length_app, writes_of_length.
    unfold count in *. simpl. split; [lia|]. split; [lia|].
    exists model, props, frames. split_and!; try done; lia.
Qed.

(** C8. Drawing never touches a frame the capture delivered: at the end of
    every run each such array still holds what was read.  A frame on which
    the detector reports no detection is copied and the copy is written
    unchanged, so what reaches the sink for it is the frame that was read.
    The sink holds exactly the frames of the write calls. *)
Theorem input_frames_are_not_mutated (i o m : string) :
  (∀ l f, EvRead (Some (l, f)) ∈ trace (run W i o m).1 →
          heap (run W i o m).1 !! l = Some f) ∧
  (∀ model n l f,
      YOLO W m = Ok model →
      EvRead (Some (l, f)) ∈ trace (run W i o m).1 →
      EvPredict n l ∈ trace (run W i o m).1 →
      predict model n f = Ok (Some []) →
      ∃ l', EvCopy l l' ∈ trace (run W i o m).1
            ∧ EvWrite l' f ∈ trace (run W i o m).1) ∧
  sink (run W i o m).1 = writes_of (trace (run W i o m).1).
Proof.
  destruct (run_cases i o m)
    as [[e Hf] | [(model & Hl & Hc) | [(model & props & frames & Hl & Hc & Hw)
       | (model & props & frames & Hl & Hc & Hw)]]].
  - rewrite (run_model_load_fails i o m e Hf). simpl.
    split_and!; [intros l f Hin|intros model n l f _ Hin _ _|done]; inv_in.
  - rewrite (run_open_fails i o m model Hl Hc). simpl.
    split_and!; [intros l f Hin|intros model' n l f _ Hin _ _|done]; inv_in.
  - rewrite (run_sink_fails i o m model props frames Hl Hc Hw). simpl.
    split_and!; [intros l f Hin|intros model' n l f _ Hin _ _|done];
      unfold prologue in Hin; inv_in.
  - rewrite (run_main i o m model props frames Hl Hc Hw).
    destruct (frame_loop_post model
                (PyNum.py_int (CAP_PROP_FRAME_COUNT props)) frames 0
                (loop_entry W i o m model props))
      as (evs & Ht & Hk & _ & _ & _ & _ & _ & _ & _ & _ & Hrd & Hempty).
    assert (writes_of (trace (loop_entry W i o m model props)) = []) as Hwo
      by done.
    assert (∀ l f, EvRead (Some (l, f))
                     ∉ trace (loop_entry W i o m model props)) as Hnr
      by (intros l f Hin; unfold loop_entry, prologue in Hin; simpl in Hin;
          inv_in).
    destruct (frame_loop W model _ frames 0 _) as [s1 [[]|e]];
      cbn [fst snd finish heap trace sink] in *; rewrite Ht.
    + split_and!.
      * intros l f Hin. inv_in; [by destruct (Hnr l f)|by apply Hrd].
      * intros model' n l f Hy Hin Hin' Hpe.
        destruct Hl as [Hy' _]. rewrite Hy' in Hy. injection Hy as <-.
        apply elem_of_app in Hin as [Hin|Hin]; [|inv_in].
        apply elem_of_app in Hin as [Hin|Hin]; [by destruct (Hnr l f)|].
        apply elem_of_app in Hin' as [Hin'|Hin']; [|inv_in].
        apply elem_of_app in Hin' as [Hin'|Hin'];
          [unfold loop_entry, prologue in Hin'; simpl in Hin'; inv_in|].
        destruct (Hempty n l f) as (l' & Hcp & Hwr); try done.
        exists l'. rewrite !elem_of_app. auto.
      * rewrite Hk, !writes_of_app, Hwo. simpl. by rewrite app_nil_r.
    + split_and!.
      * intros l f Hin. inv_in; [by destruct (Hnr l f)|by apply Hrd].
      * intros model' n l f Hy Hin Hin' Hpe.
        destruct Hl as [Hy' _]. rewrite Hy' in Hy. injection Hy as <-.
        apply elem_of_app in Hin as [Hin|Hin]; [by destruct (Hnr l f)|].
        apply elem_of_app in Hin' as [Hin'|Hin'];
          [unfold loop_entry, prologue in Hin'; simpl in Hin'; inv_in|].
        destruct (Hempty n l f) as (l' & Hcp & Hwr); try done.
        exists l'. rewrite !elem_of_app. auto.
      * by rewrite Hk, !writes_of_app, Hwo.
Qed.

(** *** The streams at the end of a run *)

(** X17. When the writer cannot be opened the capture is released before
    the [IOError] is raised: the release is the last call of the run, and
    the writer is left unopened. *)
Lemma sink_failure_releases_source (i o m : string) (model : Model)
    (props : VideoProps) (frames : list Frame) :
  model_loads W m model → VideoCapture W i = Some (props, frames) →
  writer_opens W o props = false →
  (run W i o m).2
    = Raise (IOError ("Cannot initialize video writer for: " +:+ o)) ∧
  cap (run W i o m).1 = Released ∧
  video_writer (run W i o m).1 = NotOpened ∧
  last (trace (run W i o m).1) = Some EvReleaseSource.
Proof.
  intros Hl Hc Hw. rewrite (run_sink_fails i o m model props frames Hl Hc Hw).
  done.
Qed.

(** X18. A run that completes has released both streams. *)
Lemma completed_run_releases (i o m : string) :
  (run W i o m).2 = Ok () →
  cap (run W i o m).1 = Released ∧ video_writer (run W i o m).1 = Released.
Proof.
  destruct (run_cases i o m)
    as [[e Hf] | [(model & Hl & Hc) | [(model & props & frames & Hl & Hc & Hw)
       | (model & props & frames & Hl & Hc & Hw)]]].
  - by rewrite (run_model_load_fails i o m e Hf).
  - by rewrite (run_open_fails i o m model Hl Hc).
  - by rewrite (run_sink_fails i o m model props frames Hl Hc Hw).
  - rewrite (run_main i o m model props frames Hl Hc Hw).
    by destruct (frame_loop W model _ frames 0 _) as [s1 [[]|e]].
Qed.

(** An exception that leaves the frame loop reaches the caller with the
    capture and the writer still open: nothing releases them. *)
Lemma loop_exception_keeps_streams_open (i o m : string) (model : Model)
    (props : VideoProps) (frames : list Frame) (e : exn) :
  model_loads W m model → VideoCapture W i = Some (props, frames) →
  writer_opens W o props = true →
  (frame_loop W model (PyNum.py_int (CAP_PROP_FRAME_COUNT props)) frames 0
     (loop_entry W i o m model props)).2 = Raise e →
  (run W i o m).2 = Raise e ∧
  cap (run W i o m).1 = Opened ∧ video_writer (run W i o m).1 = Opened.
Proof.
  intros Hl Hc Hw. rewrite (run_main i o m model props frames Hl Hc Hw).
  destruct (frame_loop_post model
              (PyNum.py_int (CAP_PROP_FRAME_COUNT props)) frames 0
              (loop_entry W i o m model props))
    as (evs & _ & _ & Hcap & Hwri & _).
  destruct (frame_loop W model _ frames 0 _) as [s1 [[]|e']]; [done|].
  simpl in *. by intros [= ->].
Qed.

End Driver.

(** ** Runs in the small world *)

Section Runs.
Import VideoProcessor Observe Accepted.
Local Open Scope Z_scope.

(** C1 as stated fails: inference raises on the second of three frames,
    the run completes, three frames were read and two written; the frame
    whose inference failed is missing from the sink. *)
Lemma failed_frame_is_not_written :
  (run Demo.three_frames "in.mp4" "out.mp4" "best.pt").2 = Ok () ∧
  frames_read (run Demo.three_frames "in.mp4" "out.mp4" "best.pt").1 = 3%nat ∧
  frames_written (run Demo.three_frames "in.mp4" "out.mp4" "best.pt").1 = 2%nat ∧
  sink (run Demo.three_frames "in.mp4" "out.mp4" "best.pt").1
    = [Demo.grey 1; Demo.grey 3] ∧
  frames_written (run Demo.three_frames "in.mp4" "out.mp4" "best.pt").1
    ≠ frames_read (run Demo.three_frames "in.mp4" "out.mp4" "best.pt").1.
Proof. vm_compute. split_and!; try reflexivity. discriminate. Qed.

(** The counts on that run: two written, one failure, three read. *)
Lemma written_frames_count_witness :
  (run Demo.three_frames "in.mp4" "out.mp4" "best.pt").2 = Ok () ∧
  ((frames_written (run Demo.three_frames "in.mp4" "out.mp4" "best.pt").1
    + inference_failures (run Demo.three_frames "in.mp4" "out.mp4" "best.pt").1
    = frames_read (run Demo.three_frames "in.mp4" "out.mp4" "best.pt").1)%nat ∧
   length (sink (run Demo.three_frames "in.mp4" "out.mp4" "best.pt").1)
     = frames_written (run Demo.three_frames "in.mp4" "out.mp4" "best.pt").1 ∧
   ∃ model props frames,
     model_loads Demo.three_frames "best.pt" model ∧
     VideoCapture Demo.three_frames "in.mp4" = Some (props, frames) ∧
     frames_read (run Demo.three_frames "in.mp4" "out.mp4" "best.pt").1
       = length frames ∧
     inference_failures (run Demo.three_frames "in.mp4" "out.mp4" "best.pt").1
       = failing model frames 0).
Proof.
  split; [vm_compute; reflexivity|].
  apply (written_frames_count Demo.three_frames "in.mp4" "out.mp4" "best.pt").
  vm_compute. reflexivity.
Defined.

(** C2: a result without boxes makes line 84 raise inside the loop; the
    error reaches the caller while the capture and the writer are still
    open, and no release call was made. *)
Lemma loop_exception_leaves_streams_open :
  let r := run (Demo.world [Demo.grey 1] Demo.without_boxes)
             "in.mp4" "out.mp4" "best.pt" in
  r.2 = Raise (AttributeError "'NoneType' object has no attribute 'data'") ∧
  cap r.1 = Opened ∧ video_writer r.1 = Opened ∧
  (EvReleaseSource ∉ trace r.1) ∧ (EvReleaseSink ∉ trace r.1).
Proof.
  vm_compute. split_and!; try reflexivity.
  - intros Hin.
    repeat (apply elem_of_cons in Hin as [Hin|Hin]; [discriminate Hin|]).
    by apply elem_of_nil in Hin.
  - intros Hin.
    repeat (apply elem_of_cons in Hin as [Hin|Hin]; [discriminate Hin|]).
    by apply elem_of_nil in Hin.
Qed.

(** A box inside the 4 x 3 frame: the drawing calls mark pixels of the copy
    at location 1, which is what reaches the sink, while the array read at
    location 0 keeps its content. *)
Example drawing_changes_only_the_copy :
  let r := run (Demo.world [Demo.grey 1]
                  (Demo.one_box [1 # 1; 1 # 1; 3 # 1; 2 # 1; 9 # 10; 1 # 1]))
             "in.mp4" "out.mp4" "best.pt" in
  r.2 = Ok () ∧
  heap r.1 !! 0%nat = Some (Demo.grey 1) ∧
  sink r.1 = [ [ [(1, 1, 1); (1, 1, 1); (1, 1, 1); (1, 1, 1)];
                 [(1, 1, 1); (0, 255, 0); (1, 1, 1); (1, 1, 1)];
                 [(1, 1, 1); (1, 1, 1); (1, 1, 1); (1, 1, 1)] ] ] ∧
  heap r.1 !! 1%nat = head (sink r.1).
Proof. vm_compute. split_and!; reflexivity. Qed.

(** Three frames with a detection on the second only: three frames are
    written, the first and the third as they were read. *)
Example frames_without_detections_pass_unchanged :
  let r := run (Demo.world [Demo.grey 1; Demo.grey 2; Demo.grey 3]
                  (Demo.only_on_second
                     [1 # 1; 1 # 1; 3 # 1; 2 # 1; 9 # 10; 1 # 1]))
             "in.mp4" "out.mp4" "best.pt" in
  r.2 = Ok () ∧
  sink r.1 !! 0%nat = Some (Demo.grey 1) ∧
  sink r.1 !! 1%nat = Some [ [(2, 2, 2); (2, 2, 2); (2, 2, 2); (2, 2, 2)];
                             [(2, 2, 2); (0, 255, 0); (2, 2, 2); (2, 2, 2)];
                             [(2, 2, 2); (2, 2, 2); (2, 2, 2); (2, 2, 2)] ] ∧
  sink r.1 !! 2%nat = Some (Demo.grey 3) ∧
  length (sink r.1) = 3%nat.
Proof. vm_compute. split_and!; reflexivity. Qed.

(** C3 as stated fails: a box with [x1 > x2] and [y1 > y2] is drawn, with
    its rectangle and its label, and the frame that is written shows it:
    the pixel at its first corner has taken the colour of the box. *)
Lemma degenerate_box_is_drawn :
  let r := run (Demo.world [Demo.grey 1]
                  (Demo.one_box [3 # 1; 2 # 1; 1 # 1; 1 # 1; 9 # 10; 7 # 1]))
             "in.mp4" "out.mp4" "best.pt" in
  valid_box 4 3 3 2 1 1 = false ∧
  r.2 = Ok () ∧
  List.filter is_draw (trace r.1)
    = [ EvRectangle 1%nat (3, 2) (1, 1) GREEN 2;
        EvRectangle 1%nat (3, 2) (146, 22) GREEN (-1);
        EvPutText 1%nat "Class_7: 0.90" (3, 19) BLACK ] ∧
  sink r.1 = [ [ [(1, 1, 1); (1, 1, 1); (1, 1, 1); (1, 1, 1)];
                 [(1, 1, 1); (1, 1, 1); (1, 1, 1); (1, 1, 1)];
                 [(1, 1, 1); (1, 1, 1); (1, 1, 1); (0, 255, 0)] ] ] ∧
  sink r.1 ≠ [Demo.grey 1].
Proof. vm_compute. split_and!; try reflexivity. discriminate. Qed.

(** A degenerate box and a box far outside the 4 x 3 frame, both made of
    points OpenCV accepts: three drawing calls each. *)
Lemma every_detection_is_drawn_witness :
  let W := Demo.world [] Demo.no_boxes in
  let ds := [ (3 # 1, 2 # 1, 1 # 1, 1 # 1, 9 # 10, 7 # 1);
              (200 # 1, 100 # 1, 50 # 1, 20 # 1, 9 # 10, 0 # 1) ] in
  let r := draw_detections W Demo.class_names 0%nat (row_of <$> ds) initial in
  Forall (λ d, drawable W Demo.class_names d = true) ds ∧
  (r.2 = Ok () ∧
   trace r.1
     = trace initial ++ concat (drawing_of_six W Demo.class_names 0%nat <$> ds)
   ∧ length (List.filter is_draw (trace r.1)) =
       (length (List.filter is_draw (trace initial)) + 3 * length ds)%nat ∧
   (∀ x1 y1 x2 y2 score class_id,
       (x1, y1, x2, y2, score, class_id) ∈ ds →
       EvRectangle 0%nat (PyNum.py_int x1, PyNum.py_int y1)
         (PyNum.py_int x2, PyNum.py_int y2) GREEN 2 ∈ trace r.1)).
Proof.
  intros W ds r.
  assert (Forall (λ d, drawable W Demo.class_names d = true) ds) as Hfit.
  { repeat (constructor; [vm_compute; reflexivity|]). constructor. }
  split; [exact Hfit|].
  apply (every_detection_is_drawn W Demo.class_names 0%nat ds initial).
  exact Hfit.
Defined.

(** C4: a box near the top of a 640 x 480 picture, with the text size
    OpenCV gives this font (14 high, baseline 6).  The test of line 103
    holds ([15 > 14]), the label stays above the box, and its background
    starts at row -5, the text at row -2: both leave the picture at the
    top. *)
Lemma label_leaves_frame_at_top :
  let W := Demo.world_with Demo.vga [Demo.blank 640 480 1]
             (Demo.one_box [100 # 1; 25 # 1; 200 # 1; 60 # 1; 9 # 10; 0 # 1]) in
  let r := run W "in.mp4" "out.mp4" "best.pt" in
  valid_box 640 480 100 25 200 60 = true ∧
  getTextSize W "stop: 0.90" FONT_HERSHEY_SIMPLEX (6 # 10) 2 = ((110, 14), 6) ∧
  r.2 = Ok () ∧
  List.filter is_draw (trace r.1)
    = [ EvRectangle 1%nat (100, 25) (200, 60) GREEN 2;
        EvRectangle 1%nat (100, -5) (210, 15) GREEN (-1);
        EvPutText 1%nat "stop: 0.90" (100, 12) BLACK ] ∧
  inside_frame 640 480 ((100, -5), (210, 15)) = false ∧
  text_extent (100, 12) ((110, 14), 6) = ((100, -2), (210, 18)) ∧
  inside_frame 640 480 (text_extent (100, 12) ((110, 14), 6)) = false ∧
  inside_frame 640 480
    ((100, 25), (210, 25 + 14 + 6)) = true.
Proof. vm_compute. split_and!; reflexivity. Qed.

(** No model at ["missing.pt"]: the run stops before any frame I/O. *)
Lemma model_load_error_witness :
  model_load_fails Demo.three_frames "missing.pt" FileNotFoundError ∧
  ((run Demo.three_frames "in.mp4" "out.mp4" "missing.pt").2
     = Raise FileNotFoundError ∧
   cap (run Demo.three_frames "in.mp4" "out.mp4" "missing.pt").1 = NotCreated ∧
   video_writer (run Demo.three_frames "in.mp4" "out.mp4" "missing.pt").1
     = NotCreated ∧
   sink (run Demo.three_frames "in.mp4" "out.mp4" "missing.pt").1 = [] ∧
   Forall (λ ev, is_frame_io ev = false)
     (trace (run Demo.three_frames "in.mp4" "out.mp4" "missing.pt").1)).
Proof.
  split; [left; reflexivity|].
  apply (model_load_error_precedes_frame_io Demo.three_frames "in.mp4" "out.mp4"
           "missing.pt" FileNotFoundError).
  left. reflexivity.
Defined.

(** No video at ["broken.mp4"]: the run stops before the writer is built. *)
Lemma unreadable_input_witness :
  VideoCapture Demo.three_frames "broken.mp4" = None ∧
  (video_writer (run Demo.three_frames "broken.mp4" "out.mp4" "best.pt").1
     = NotCreated ∧
   sink (run Demo.three_frames "broken.mp4" "out.mp4" "best.pt").1 = [] ∧
   (EvOpenSink "out.mp4"
      ∉ trace (run Demo.three_frames "broken.mp4" "out.mp4" "best.pt").1) ∧
   Forall (λ ev, is_write ev = false)
     (trace (run Demo.three_frames "broken.mp4" "out.mp4" "best.pt").1) ∧
   (∀ model, model_loads Demo.three_frames "best.pt" model →
      (run Demo.three_frames "broken.mp4" "out.mp4" "best.pt").2
        = Raise (IOError ("Cannot open video file: " +:+ "broken.mp4")) ∧
      cap (run Demo.three_frames "broken.mp4" "out.mp4" "best.pt").1 = NotOpened)).
Proof.
  split; [reflexivity|].
  apply (unreadable_input_creates_no_output Demo.three_frames "broken.mp4"
           "out.mp4" "best.pt").
  reflexivity.
Defined.

End Runs.

(** * Further properties *)

(** ** config.py: more on [allowed_file] *)

Section AllowedFileMore.
Import PyStr Config.

Lemma string_app_assoc (s t u : string) : (s +:+ t) +:+ u = s +:+ t +:+ u.
Proof.
  induction s as [|a s IH]; [done|]. rewrite !append_cons. by rewrite IH.
Qed.

Lemma lower_char_idemp (a : ascii) : lower_char (lower_char a) = lower_char a.
Proof. by destruct a as [[] [] [] [] [] [] [] []]. Qed.

Lemma lower_char_dot (a : ascii) :
  lower_char a = "."%char ↔ a = "."%char.
Proof. destruct a as [[] [] [] [] [] [] [] []]; by vm_compute. Qed.

Lemma lower_idemp (s : string) : lower (lower s) = lower s.
Proof.
  induction s as [|a s IH]; [done|]. simpl. by rewrite lower_char_idemp, IH.
Qed.

(** Lowering moves no dot: the name splits at the same place. *)
Lemma rsplit1_at_lower (s : string) :
  rsplit1_at "." (lower s)
  = (λ p, (lower p.1, lower p.2)) <$> rsplit1_at "." s.
Proof.
  induction s as [|a s IH]; [done|]. simpl. rewrite IH.
  destruct (rsplit1_at "." s) as [[pre post]|]; simpl; [done|].
  destruct (decide (a = "."%char)) as [->|Hne]; [done|].
  rewrite decide_False; [done|]. by rewrite lower_char_dot.
Qed.

Lemma contains_lower (s : string) :
  contains "." (lower s) = contains "." s.
Proof.
  induction s as [|a s IH]; [done|]. simpl. rewrite IH.
  destruct (decide (a = "."%char)) as [->|Hne]; [done|].
  rewrite decide_False; [done|]. by rewrite lower_char_dot.
Qed.

(** X1. [allowed_file] does not depend on the case of the name: a name and
    its lower-case form get the same answer. *)
Theorem allowed_file_lower (filename : string) :
  allowed_file (lower filename) = allowed_file filename.
Proof.
  unfold allowed_file, rsplit1.
  rewrite contains_lower, rsplit1_at_lower.
  destruct (contains "." filename); [|done].
  destruct (rsplit1_at "." filename) as [[pre post]|]; simpl; [|done].
  by rewrite lower_idemp.
Qed.

(** The text after the last [sep] of [s], or [s] when it has none. *)
Lemma rsplit1_at_stem (sep : ascii) (stem ext : string) :
  ∃ pre, rsplit1_at sep (stem +:+ String sep ext)
         = Some (pre, match rsplit1_at sep ext with
                      | Some (_, post) => post
                      | None => ext
                      end).
Proof.
  induction stem as [|a stem [pre IH]].
  - rewrite append_nil. simpl.
    destruct (rsplit1_at sep ext) as [[pre post]|]; [by eexists|].
    rewrite decide_True by done. by eexists.
  - rewrite append_cons. simpl. rewrite IH. by eexists.
Qed.

(** X2. Only the text after the last dot counts: whatever precedes it, an
    empty stem included, the answer of [allowed_file] is the same. *)
Theorem allowed_file_ignores_stem (stem ext : string) :
  allowed_file (stem +:+ "." +:+ ext) = allowed_file ("." +:+ ext).
Proof.
  change ("." +:+ ext) with (String "." ext).
  destruct (rsplit1_at_stem "." stem ext) as [pre H].
  destruct (rsplit1_at_stem "." "" ext) as [pre' H'].
  rewrite append_nil in H'.
  unfold allowed_file, rsplit1. rewrite H, H', contains_append.
  simpl. done.
Qed.

End AllowedFileMore.

(** ** app/routes.py: more on the download route *)

Section DownloadMore.
Import Routes.
Variable W : Web.

(** X3. [download_file] never lets a [FileNotFoundError] escape: what it
    raises is what [send_from_directory] raised for a name that passed both
    guards, and is another exception.  A redirect always comes with exactly
    one flashed message of category [danger], a served file with none. *)
Theorem download_file_outcomes (filename : string) :
  (∀ e, (download_file W filename).2 = Raise e →
        e ≠ FileNotFoundError ∧
        secure_filename W filename = filename ∧
        path_exists W (path_join W (OUTPUT_FOLDER W) filename) = true ∧
        send_from_directory W (OUTPUT_FOLDER W) filename = Raise e ∧
        (download_file W filename).1 = []) ∧
  (∀ target, (download_file W filename).2 = Ok (Redirect target) →
        target = "main.index" ∧
        ∃ text, (download_file W filename).1 = [(text, "danger")]) ∧
  (∀ d n body, (download_file W filename).2 = Ok (Attachment d n body) →
        (download_file W filename).1 = []).
Proof.
  unfold download_file.
  case_bool_decide as Hs; simpl.
  - rewrite Hs.
    destruct (path_exists W _) eqn:He; simpl.
    + destruct (send_from_directory W _ _) as [b|e] eqn:Hsend.
      * split_and!; [done| |done]. intros target [=].
      * destruct e; simpl; split_and!; try done;
          first [ by intros e' [= <-]
                | by intros target [=]
                | intros target [= <-]; split; [done|]; by eexists ].
    + split_and!; [done| |done].
      intros target [= <-]. split; [done|]. by eexists.
  - split_and!; [done| |done].
    intros target [= <-]. split; [done|]. by eexists.
Qed.

End DownloadMore.

(** ** Formatting a confidence score *)

Section ScoreFormat.
Import PyNum.
Local Open Scope Z_scope.



End ScoreFormat.

(** ** Where the label lands *)

Section LabelGeometry.
Import VideoProcessor Observe.
Local Open Scope Z_scope.
Variable W : World.

(** X5. The label text is drawn over its background: both start at column
    [x1] and the background is as wide as the text; as long as the baseline
    is not negative, the rows from the text origin up to the text height
    lie between the upper and the lower edge of the filled rectangle. *)
Theorem label_text_over_background (class_names : gmap Z string) (a : loc)
    (x1 y1 x2 y2 score class_id : Q) (s : State) :
  let text := label_with_score class_names (PyNum.py_int class_id) score in
  let size := getTextSize W text FONT_HERSHEY_SIMPLEX (6 # 10) 2 in
  0 ≤ size.2 →
  ∃ pt1 pt2 top_left bottom_right org,
    trace (draw_detection W class_names a
             [x1; y1; x2; y2; score; class_id] s).1 =
      trace s ++
        [ EvRectangle a pt1 pt2 GREEN 2;
          EvRectangle a top_left bottom_right GREEN (-1);
          EvPutText a text org BLACK ] ∧
    top_left.1 = org.1 ∧ bottom_right.1 = org.1 + size.1.1 ∧
    top_left.2 ≤ org.2 - size.1.2 ∧ org.2 ≤ bottom_right.2 ∧
    bottom_right.2 - top_left.2 = size.1.2 + size.2.
Proof.
  intros text size Hbl.
  destruct (draw_detection_trace W class_names a x1 y1 x2 y2 score class_id s)
    as [_ Htr].
  do 5 eexists. split; [exact Htr|]. simpl. fold text size.
  assert (0 ≤ size.2 / 2 ≤ size.2) by (split; Z.div_mod_to_equations; lia).
  lia.
Qed.

(** X6. What the test on line 103 secures: for a box whose top edge is in
    the frame ([y1 >= 0]) and a text size without negative parts, the
    label background starts at most [baseline] rows above the frame, the
    text at most half a baseline, and the lower edge of the label is never
    above row [text_height]. *)
Theorem label_top_bound (class_names : gmap Z string) (a : loc)
    (x1 y1 x2 y2 score class_id : Q) (s : State) :
  let text := label_with_score class_names (PyNum.py_int class_id) score in
  let size := getTextSize W text FONT_HERSHEY_SIMPLEX (6 # 10) 2 in
  0 ≤ PyNum.py_int y1 → 0 ≤ size.1.2 → 0 ≤ size.2 →
  ∃ pt1 pt2 top_left bottom_right org,
    trace (draw_detection W class_names a
             [x1; y1; x2; y2; score; class_id] s).1 =
      trace s ++
        [ EvRectangle a pt1 pt2 GREEN 2;
          EvRectangle a top_left bottom_right GREEN (-1);
          EvPutText a text org BLACK ] ∧
    - size.2 ≤ top_left.2 ∧
    - (size.2 / 2) ≤ org.2 - size.1.2 ∧
    size.1.2 ≤ bottom_right.2.
Proof.
  intros text size Hy Hth Hbl.
  destruct (draw_detection_trace W class_names a x1 y1 x2 y2 score class_id s)
    as [_ Htr].
  do 5 eexists. split; [exact Htr|]. simpl. fold text size.
  assert (0 ≤ size.2 / 2 ≤ size.2) by (split; Z.div_mod_to_equations; lia).
  unfold text_y_of.
  destruct (Z.gtb_spec (PyNum.py_int y1 - 10) size.1.2); lia.
Qed.

End LabelGeometry.

(** With the stand-in text size of the small world: height 14, baseline 6. *)
Lemma label_text_over_background_witness :
  let W := Demo.world [] Demo.no_boxes in
  let text := VideoProcessor.label_with_score Demo.class_names
                (PyNum.py_int (0 # 1)) (9 # 10) in
  let size := VideoProcessor.getTextSize W text
                VideoProcessor.FONT_HERSHEY_SIMPLEX (6 # 10) 2 in
  (0 ≤ size.2)%Z ∧
  ∃ pt1 pt2 top_left bottom_right org,
    VideoProcessor.trace
      (VideoProcessor.draw_detection W Demo.class_names 0%nat
         [600 # 1; 25 # 1; 630 # 1; 60 # 1; 9 # 10; 0 # 1]
         VideoProcessor.initial).1 =
      VideoProcessor.trace VideoProcessor.initial ++
        [ VideoProcessor.EvRectangle 0%nat pt1 pt2 VideoProcessor.GREEN 2;
          VideoProcessor.EvRectangle 0%nat top_left bottom_right
            VideoProcessor.GREEN (-1);
          VideoProcessor.EvPutText 0%nat text org VideoProcessor.BLACK ] ∧
    top_left.1 = org.1 ∧ bottom_right.1 = (org.1 + size.1.1)%Z ∧
    (top_left.2 ≤ org.2 - size.1.2)%Z ∧ (org.2 ≤ bottom_right.2)%Z ∧
    (bottom_right.2 - top_left.2)%Z = (size.1.2 + size.2)%Z.
Proof.
  intros W text size. split; [vm_compute; discriminate|].
  apply (label_text_over_background W Demo.class_names 0%nat (600 # 1)
           (25 # 1) (630 # 1) (60 # 1) (9 # 10) (0 # 1)
           VideoProcessor.initial).
  vm_compute. discriminate.
Defined.

Lemma label_top_bound_witness :
  let W := Demo.world [] Demo.no_boxes in
  let text := VideoProcessor.label_with_score Demo.class_names
                (PyNum.py_int (0 # 1)) (9 # 10) in
  let size := VideoProcessor.getTextSize W text
                VideoProcessor.FONT_HERSHEY_SIMPLEX (6 # 10) 2 in
  (0 ≤ PyNum.py_int (25 # 1))%Z ∧ (0 ≤ size.1.2)%Z ∧ (0 ≤ size.2)%Z ∧
  ∃ pt1 pt2 top_left bottom_right org,
    VideoProcessor.trace
      (VideoProcessor.draw_detection W Demo.class_names 0%nat
         [600 # 1; 25 # 1; 630 # 1; 60 # 1; 9 # 10; 0 # 1]
         VideoProcessor.initial).1 =
      VideoProcessor.trace VideoProcessor.initial ++
        [ VideoProcessor.EvRectangle 0%nat pt1 pt2 VideoProcessor.GREEN 2;
          VideoProcessor.EvRectangle 0%nat top_left bottom_right
            VideoProcessor.GREEN (-1);
          VideoProcessor.EvPutText 0%nat text org VideoProcessor.BLACK ] ∧
    (- size.2 ≤ top_left.2)%Z ∧
    (- (size.2 / 2) ≤ org.2 - size.1.2)%Z ∧
    (size.1.2 ≤ bottom_right.2)%Z.
Proof.
  intros W text size.
  split; [vm_compute; discriminate|].
  split; [vm_compute; discriminate|].
  split; [vm_compute; discriminate|].
  apply (label_top_bound W Demo.class_names 0%nat (600 # 1)
           (25 # 1) (630 # 1) (60 # 1) (9 # 10) (0 # 1)
           VideoProcessor.initial); vm_compute; discriminate.
Defined.

(** ** app/processing/video_processor.py: what a run writes, logs and raises *)

Section PipelineMore.
Import VideoProcessor Observe Expected Accepted.
Local Open Scope Z_scope.

Ltac msimpl :=
  unfold mbind, M_bind, mret, M_ret, bind, ret, raise, lift, try_except,
    log, emit, set_cap, set_writer, alloc, load, update, append_sink;
  simpl.

Ltac list_norm := repeat progress (rewrite <- ?app_assoc; cbn [app]).

Variable W : World.

Lemma as_six_row_of (row : det_row) (d : six) :
  as_six row = Some d → row = row_of d.
Proof.
  destruct row as [|x1 [|y1 [|x2 [|y2 [|score [|class_id [|extra row]]]]]]];
    try done.
  by intros [= <-].
Qed.

Lemma mapM_as_six (rows : list det_row) (ds : list six) :
  mapM as_six rows = Some ds → rows = row_of <$> ds.
Proof.
  intros H. apply mapM_Some_1 in H.
  induction H as [|row d rows ds Hrow _ IH]; [done|].
  rewrite fmap_cons. f_equal; [by apply as_six_row_of|done].
Qed.

Lemma draw_detection_ill_formed (class_names : gmap Z string) (a : loc)
    (row : det_row) (s : State) :
  as_six row = None →
  draw_detection W class_names a row s
    = (s, Raise (unpack_error (length row))) ∧
  length row ≠ 6%nat.
Proof.
  by destruct row as [|x1 [|y1 [|x2 [|y2 [|score [|class_id [|extra row]]]]]]].
Qed.

(** A list with an ill-formed row makes the loop over the detections raise
    the unpacking error. *)
Lemma draw_detections_ill_formed (class_names : gmap Z string) (a : loc)
    (rows : list det_row) (s : State) :
  mapM as_six rows = None →
  ∃ e, is_unpack_error e ∧
       (draw_detections W class_names a rows s).2 = Raise e.
Proof.
  revert s. induction rows as [|row rows IH]; intros s; [done|].
  cbn [draw_detections].
  change (draw_detection W class_names a row;;
          draw_detections W class_names a rows)
    with (bind (draw_detection W class_names a row)
            (λ _, draw_detections W class_names a rows)).
  unfold bind. simpl.
  destruct (as_six row) as [d|] eqn:Hrow; simpl.
  - rewrite (as_six_row_of row d Hrow), (draw_detection_six W).
    destruct (mapM as_six rows) as [ds|] eqn:Hrows; [done|].
    intros _. by apply IH.
  - intros _.
    destruct (draw_detection_ill_formed class_names a row s Hrow) as [-> Hn].
    exists (unpack_error (length row)). split; [|done].
    by exists (length row).
Qed.

(** Copy, annotate and write, by cases on what the detector answered. *)
Lemma annotate_and_write_outcome (class_names : gmap Z string) (frame : loc)
    (boxes : option (list det_row)) (f : Frame) (s : State) :
  heap s !! frame = Some f →
  match boxes with
  | None =>
      (annotate_and_write W class_names frame boxes s).2 = Raise no_boxes_error
  | Some rows =>
      match annotate W class_names f rows with
      | None =>
          ∃ e, is_unpack_error e ∧
               (annotate_and_write W class_names frame boxes s).2 = Raise e
      | Some g =>
          (annotate_and_write W class_names frame boxes s).2 = Ok () ∧
          sink (annotate_and_write W class_names frame boxes s).1
            = sink s ++ [g]
      end
  end.
Proof.
  intros Hf. unfold annotate_and_write, copy, write, annotate. msimpl.
  rewrite Hf. simpl.
  destruct boxes as [rows|]; simpl; [|done].
  set (s1 := mkState _ _ _ _ _ _).
  destruct (mapM as_six rows) as [ds|] eqn:Hrows; simpl.
  - rewrite (mapM_as_six rows ds Hrows).
    destruct (0 <? length (row_of <$> ds))%nat eqn:Hlen.
    + rewrite (draw_detections_six W). simpl.
      by rewrite lookup_alter_eq, lookup_insert_eq.
    + simpl. rewrite lookup_insert_eq. simpl.
      destruct ds; [done|]. done.
  - destruct (0 <? length rows)%nat eqn:Hlen.
    + destruct (draw_detections_ill_formed class_names (next_loc s) rows s1
                  Hrows) as (e & He & Hd).
      exists e. split; [done|].
      by destruct (draw_detections W class_names (next_loc s) rows s1)
        as [s2 [[]|e']]; simpl in *; simplify_eq.
    + destruct rows; [done|]. done.
Qed.

(** The loop writes the expected frames, or stops at the first answer
    without boxes or with an ill-formed row. *)
Lemma frame_loop_expected (model : Model) (tf : Z) (src : list Frame) (n : Z)
    (s : State) :
  match expected_sink W model src n with
  | Some out =>
      (frame_loop W model tf src n s).2 = Ok () ∧
      sink (frame_loop W model tf src n s).1 = sink s ++ out
  | None =>
      (frame_loop W model tf src n s).2 = Raise no_boxes_error ∨
      ∃ e, is_unpack_error e ∧ (frame_loop W model tf src n s).2 = Raise e
  end.
Proof.
  revert n s. induction src as [|f src IH]; intros n s.
  - simpl. by rewrite app_nil_r.
  - rewrite (frame_loop_cons W). cbn [expected_sink].
    destruct (predict model (n + 1) f) as [boxes|e] eqn:Hpred.
    + pose proof (annotate_and_write_outcome (names model) (next_loc s) boxes f
                    (after_read tf f n s)) as Hout.
      specialize (Hout ltac:(by apply lookup_insert_eq)).
      destruct boxes as [rows|].
      * destruct (annotate W (names model) f rows) as [g|].
        -- destruct Hout as [Hok Hsink].
           destruct (annotate_and_write W (names model) (next_loc s) _ _)
             as [s2 [[]|e]]; [|done].
           simpl in Hsink. specialize (IH (n + 1) s2).
           destruct (expected_sink W model src (n + 1)) as [out|]; simpl.
           ++ destruct IH as [-> ->]. rewrite Hsink. by list_norm.
           ++ done.
        -- destruct Hout as (e & He & Hout).
           destruct (annotate_and_write W (names model) (next_loc s) _ _)
             as [s2 [[]|e']]; simpl in *; [done|]. right. by exists e.
      * destruct (annotate_and_write W (names model) (next_loc s) _ _)
          as [s2 [[]|e]]; simpl in *; [done|]. by left.
    + exact (IH (n + 1)
               (add_event (EvLog ERROR (MsgPredictError (n + 1) e))
                  (after_read tf f n s))).
Qed.

(** X7. When the model loads and both streams open, every answer of the
    detector is a failure or an array of six-valued rows, and the points of
    those rows are points OpenCV accepts, the run completes with both
    streams released, and the sink holds, in the order of the source, the
    annotated picture of every frame whose inference succeeded and nothing
    else. *)
Theorem run_writes_expected (i o m : string) (model : Model)
    (props : VideoProps) (frames out : list Frame) :
  model_loads W m model → VideoCapture W i = Some (props, frames) →
  writer_opens W o props = true →
  answers_drawable W model frames 0 = true →
  expected_sink W model frames 0 = Some out →
  (run W i o m).2 = Ok () ∧ sink (run W i o m).1 = out ∧
  cap (run W i o m).1 = Released ∧ video_writer (run W i o m).1 = Released.
Proof.
  intros Hl Hc Hw _ Hexp.
  rewrite (run_main W i o m model props frames Hl Hc Hw).
  pose proof (frame_loop_expected model
                (PyNum.py_int (CAP_PROP_FRAME_COUNT props)) frames 0
                (loop_entry W i o m model props)) as Hloop.
  rewrite Hexp in Hloop. destruct Hloop as [Hok Hsink].
  by destruct (frame_loop W model _ frames 0 _) as [s1 [[]|e]].
Qed.

(** X8. With the model loaded, both streams open and the points of the
    detector's rows accepted by OpenCV, the run completes exactly when no
    answer of the detector lacks its boxes or carries a row that does not
    hold six values; failures of inference do not matter. *)
Theorem run_completes_iff (i o m : string) (model : Model)
    (props : VideoProps) (frames : list Frame) :
  model_loads W m model → VideoCapture W i = Some (props, frames) →
  writer_opens W o props = true →
  answers_drawable W model frames 0 = true →
  (run W i o m).2 = Ok () ↔ is_Some (expected_sink W model frames 0).
Proof.
  intros Hl Hc Hw _. rewrite (run_main W i o m model props frames Hl Hc Hw).
  pose proof (frame_loop_expected model
                (PyNum.py_int (CAP_PROP_FRAME_COUNT props)) frames 0
                (loop_entry W i o m model props)) as Hloop.
  destruct (expected_sink W model frames 0) as [out|].
  - destruct Hloop as [Hok _].
    destruct (frame_loop W model _ frames 0 _) as [s1 [[]|e]]; [|done].
    split; [by eexists|done].
  - destruct (frame_loop W model _ frames 0 _) as [s1 [[]|e]];
      simpl in Hloop.
    + by destruct Hloop as [|(e & _ & ?)].
    + split; [done|]. by intros [? ?].
Qed.

(** X9. As long as the points of the detector's rows are points OpenCV
    accepts, whatever [process_video] raises is the error of the model
    loader, one of its two [IOError]s, the [AttributeError] of line 84 or
    the [ValueError] of the unpacking on line 88: an exception of
    [model.predict] never reaches the caller. *)
Theorem run_error_kinds (i o m : string) (e : exn) :
  (∀ model props frames,
      model_loads W m model → VideoCapture W i = Some (props, frames) →
      answers_drawable W model frames 0 = true) →
  (run W i o m).2 = Raise e →
  model_load_fails W m e
  ∨ e = IOError ("Cannot open video file: " +:+ i)
  ∨ e = IOError ("Cannot initialize video writer for: " +:+ o)
  ∨ e = no_boxes_error ∨ is_unpack_error e.
Proof.
  intros _.
  destruct (run_cases W i o m)
    as [[e' Hf] | [(model & Hl & Hc) | [(model & props & frames & Hl & Hc & Hw)
       | (model & props & frames & Hl & Hc & Hw)]]].
  - rewrite (run_model_load_fails W i o m e' Hf). intros [= <-]. by left.
  - rewrite (run_open_fails W i o m model Hl Hc). intros [= <-]. auto.
  - rewrite (run_sink_fails W i o m model props frames Hl Hc Hw).
    intros [= <-]. auto.
  - rewrite (run_main W i o m model props frames Hl Hc Hw).
    pose proof (frame_loop_expected model
                  (PyNum.py_int (CAP_PROP_FRAME_COUNT props)) frames 0
                  (loop_entry W i o m model props)) as Hloop.
    destruct (expected_sink W model frames 0) as [out|].
    + destruct Hloop as [Hok _].
      by destruct (frame_loop W model _ frames 0 _) as [s1 [[]|e']].
    + destruct (frame_loop W model _ frames 0 _) as [s1 [[]|e']];
        simpl in *; [by destruct Hloop as [|(? & _ & ?)]|].
      intros [= <-].
      destruct Hloop as [[= ->]|(e'' & He & [= ->])]; auto 10.
Qed.

(** *** Frame numbers *)

Lemma predict_numbers_app (l1 l2 : list event) :
  predict_numbers (l1 ++ l2) = predict_numbers l1 ++ predict_numbers l2.
Proof. apply omap_app. Qed.

Lemma progress_numbers_app (l1 l2 : list event) :
  progress_numbers (l1 ++ l2) = progress_numbers l1 ++ progress_numbers l2.
Proof. apply omap_app. Qed.

Lemma draws_numbers (a : loc) (draws : list event) :
  Forall (draws_on a) draws →
  predict_numbers draws = [] ∧ progress_numbers draws = []
  ∧ count is_read draws = 0%nat.
Proof.
  induction 1 as [|e draws He _ (IH1 & IH2 & IH3)]; [done|].
  unfold predict_numbers, progress_numbers, count in *.
  by destruct e as [[] ?| | | | | | | | | | | ].
Qed.

Lemma progress_log_numbers (tf n : Z) :
  predict_numbers (progress_log tf n) = [] ∧
  count is_read (progress_log tf n) = 0%nat ∧
  progress_numbers (progress_log tf n)
    = filter (λ j, j `mod` 100 = 0) [n + 1].
Proof.
  unfold progress_log. rewrite filter_cons, filter_nil.
  destruct (Z.eqb_spec ((n + 1) `mod` 100) 0) as [Heq|Hne].
  - by rewrite decide_True.
  - by rewrite decide_False.
Qed.

(** The loop calls [predict] once for each frame it reads, numbering the
    frames from [n + 1], and records progress for the multiples of 100. *)
Lemma frame_loop_numbers (model : Model) (tf : Z) (src : list Frame) (n : Z)
    (s : State) :
  ∃ evs,
    trace (frame_loop W model tf src n s).1 = trace s ++ evs ∧
    predict_numbers evs = seqZ (n + 1) (Z.of_nat (count is_read evs)) ∧
    progress_numbers evs
      = filter (λ j, j `mod` 100 = 0)
          (seqZ (n + 1) (Z.of_nat (count is_read evs))).
Proof.
  revert n s. induction src as [|f src IH]; intros n s.
  - exists [EvRead None; EvLog INFO MsgEndOfVideo]. simpl.
    split; [by list_norm|]. done.
  - rewrite (frame_loop_cons W).
    destruct (progress_log_numbers tf n) as (Hg1 & Hg2 & Hg3).
    assert (∀ k, seqZ (n + 1) (Z.of_nat (S k))
                 = (n + 1) :: seqZ (n + 1 + 1) (Z.of_nat k)) as Hseq.
    { intros k. rewrite seqZ_cons by lia. f_equal. f_equal; lia. }
    destruct (predict model (n + 1) f) as [boxes|e0].
    + pose proof (annotate_and_write_facts W (names model) (next_loc s) boxes
                    f (after_read tf f n s)) as Hann.
      destruct Hann as (_ & _ & _ & _ & draws & Hdraws & Hres);
        [by apply lookup_insert_eq|].
      destruct (draws_numbers _ _ Hdraws) as (Hd1 & Hd2 & Hd3).
      destruct (annotate_and_write W (names model) (next_loc s) boxes _)
        as [s2 [[]|e1]].
      * destruct Hres as (g & Ht2 & _).
        destruct (IH (n + 1) s2) as (evs2 & Ht & Hpn & Hgn).
        simpl in Ht2. cbv beta iota.
        exists ([EvRead (Some (next_loc s, f))] ++ progress_log tf n
                  ++ [EvPredict (n + 1) (next_loc s)]
                  ++ [EvCopy (next_loc s) (S (next_loc s))] ++ draws
                  ++ [EvWrite (S (next_loc s)) g] ++ evs2).
        rewrite !predict_numbers_app, !progress_numbers_app, !count_app,
          Hg1, Hg2, Hg3, Hd1, Hd2, Hd3, Hpn, Hgn.
        split; [rewrite Ht, Ht2; by list_norm|].
        change (count is_read [EvRead (Some (next_loc s, f))]) with 1%nat.
        change (count is_read [EvPredict (n + 1) (next_loc s)]) with 0%nat.
        change (count is_read [EvCopy (next_loc s) (S (next_loc s))])
          with 0%nat.
        change (count is_read [EvWrite (S (next_loc s)) g]) with 0%nat.
        simpl. rewrite Hseq, filter_cons, filter_nil.
        rewrite (filter_cons _ (n + 1)). by destruct (decide _).
      * destruct Hres as (Ht2 & _). simpl in Ht2. cbv beta iota.
        exists ([EvRead (Some (next_loc s, f))] ++ progress_log tf n
                  ++ [EvPredict (n + 1) (next_loc s)]
                  ++ [EvCopy (next_loc s) (S (next_loc s))] ++ draws).
        rewrite !predict_numbers_app, !progress_numbers_app, !count_app,
          Hg1, Hg2, Hg3, Hd1, Hd2, Hd3.
        split; [simpl; rewrite Ht2; by list_norm|].
        change (count is_read [EvRead (Some (next_loc s, f))]) with 1%nat.
        change (count is_read [EvPredict (n + 1) (next_loc s)]) with 0%nat.
        change (count is_read [EvCopy (next_loc s) (S (next_loc s))])
          with 0%nat.
        simpl. rewrite (Hseq 0%nat), seqZ_nil by lia.
        by rewrite !app_nil_r.
    + destruct (IH (n + 1)
                  (add_event (EvLog ERROR (MsgPredictError (n + 1) e0))
                     (after_read tf f n s))) as (evs2 & Ht & Hpn & Hgn).
      exists ([EvRead (Some (next_loc s, f))] ++ progress_log tf n
                ++ [EvPredict (n + 1) (next_loc s)]
                ++ [EvLog ERROR (MsgPredictError (n + 1) e0)] ++ evs2).
      rewrite !predict_numbers_app, !progress_numbers_app, !count_app,
        Hg1, Hg2, Hg3, Hpn, Hgn.
      split; [rewrite Ht; simpl; by list_norm|].
      change (count is_read [EvRead (Some (next_loc s, f))]) with 1%nat.
      change (count is_read [EvPredict (n + 1) (next_loc s)]) with 0%nat.
      change (count is_read [EvLog ERROR (MsgPredictError (n + 1) e0)])
        with 0%nat.
      simpl. rewrite Hseq, filter_cons, filter_nil.
      rewrite (filter_cons _ (n + 1)). by destruct (decide _).
Qed.

(** X10. In every run [predict] is called exactly once for each frame the
    capture delivers, in the order of the source, with the frame numbers
    1, 2, 3, ... *)
Theorem run_predict_numbers (i o m : string) :
  predict_numbers (trace (run W i o m).1)
  = seqZ 1 (Z.of_nat (frames_read (run W i o m).1)).
Proof.
  destruct (run_cases W i o m)
    as [[e Hf] | [(model & Hl & Hc) | [(model & props & frames & Hl & Hc & Hw)
       | (model & props & frames & Hl & Hc & Hw)]]].
  - by rewrite (run_model_load_fails W i o m e Hf).
  - by rewrite (run_open_fails W i o m model Hl Hc).
  - by rewrite (run_sink_fails W i o m model props frames Hl Hc Hw).
  - rewrite (run_main W i o m model props frames Hl Hc Hw).
    destruct (frame_loop_numbers model
                (PyNum.py_int (CAP_PROP_FRAME_COUNT props)) frames 0
                (loop_entry W i o m model props)) as (evs & Ht & Hpn & _).
    unfold frames_read.
    destruct (frame_loop W model _ frames 0 _) as [s1 [[]|e]];
      cbn [fst snd finish trace] in *; rewrite Ht;
      rewrite !predict_numbers_app, !count_app, Hpn; simpl;
      by rewrite ?app_nil_r, ?Nat.add_0_r.
Qed.

(** X11. In every run a progress record is written for exactly the frames
    whose number is a multiple of 100, in order. *)
Theorem run_progress_numbers (i o m : string) :
  progress_numbers (trace (run W i o m).1)
  = filter (λ j, j `mod` 100 = 0)
      (seqZ 1 (Z.of_nat (frames_read (run W i o m).1))).
Proof.
  destruct (run_cases W i o m)
    as [[e Hf] | [(model & Hl & Hc) | [(model & props & frames & Hl & Hc & Hw)
       | (model & props & frames & Hl & Hc & Hw)]]].
  - by rewrite (run_model_load_fails W i o m e Hf).
  - by rewrite (run_open_fails W i o m model Hl Hc).
  - by rewrite (run_sink_fails W i o m model props frames Hl Hc Hw).
  - rewrite (run_main W i o m model props frames Hl Hc Hw).
    destruct (frame_loop_numbers model
                (PyNum.py_int (CAP_PROP_FRAME_COUNT props)) frames 0
                (loop_entry W i o m model props)) as (evs & Ht & _ & Hgn).
    unfold frames_read.
    destruct (frame_loop W model _ frames 0 _) as [s1 [[]|e]];
      cbn [fst snd finish trace] in *; rewrite Ht;
      rewrite !progress_numbers_app, !count_app, Hgn; simpl;
      by rewrite ?app_nil_r, ?Nat.add_0_r.
Qed.

End PipelineMore.

(** One frame with a degenerate box in it and one whose inference fails:
    the first is written with the box drawn, the second is left out. *)
Lemma run_writes_expected_witness :
  let d := [3 # 1; 2 # 1; 1 # 1; 1 # 1; 9 # 10; 7 # 1] in
  let answer := λ (n : Z) (_ : list (list (Z * Z * Z))),
                  if (n =? 2)%Z then Raise (LibraryError "inference")
                  else Ok (Some [d]) in
  let W := Demo.world [Demo.grey 1; Demo.grey 2] answer in
  let out := [ [ [(1, 1, 1); (1, 1, 1); (1, 1, 1); (1, 1, 1)];
                 [(1, 1, 1); (1, 1, 1); (1, 1, 1); (1, 1, 1)];
                 [(1, 1, 1); (1, 1, 1); (1, 1, 1); (0, 255, 0)] ] ]%Z in
  Observe.model_loads W "best.pt" (Demo.model answer) ∧
  VideoProcessor.VideoCapture W "in.mp4"
    = Some (Demo.props, [Demo.grey 1; Demo.grey 2]) ∧
  Observe.writer_opens W "out.mp4" Demo.props = true ∧
  Accepted.answers_drawable W (Demo.model answer)
    [Demo.grey 1; Demo.grey 2] 0 = true ∧
  Expected.expected_sink W (Demo.model answer) [Demo.grey 1; Demo.grey 2] 0
    = Some out ∧
  ((VideoProcessor.run W "in.mp4" "out.mp4" "best.pt").2 = Ok () ∧
   VideoProcessor.sink (VideoProcessor.run W "in.mp4" "out.mp4" "best.pt").1
     = out ∧
   VideoProcessor.cap (VideoProcessor.run W "in.mp4" "out.mp4" "best.pt").1
     = VideoProcessor.Released ∧
   VideoProcessor.video_writer
     (VideoProcessor.run W "in.mp4" "out.mp4" "best.pt").1
     = VideoProcessor.Released).
Proof.
  intros d answer W out.
  split; [split; reflexivity|]. split; [reflexivity|].
  split; [reflexivity|]. split; [vm_compute; reflexivity|].
  split; [vm_compute; reflexivity|].
  apply (run_writes_expected W "in.mp4" "out.mp4" "best.pt"
           (Demo.model answer) Demo.props [Demo.grey 1; Demo.grey 2] out).
  - split; reflexivity.
  - reflexivity.
  - reflexivity.
  - vm_compute. reflexivity.
  - vm_compute. reflexivity.
Defined.

Lemma run_completes_iff_witness :
  Observe.model_loads Demo.three_frames "best.pt"
    (Demo.model Demo.fails_on_second) ∧
  VideoProcessor.VideoCapture Demo.three_frames "in.mp4"
    = Some (Demo.props, [Demo.grey 1; Demo.grey 2; Demo.grey 3]) ∧
  Observe.writer_opens Demo.three_frames "out.mp4" Demo.props = true ∧
  Accepted.answers_drawable Demo.three_frames
    (Demo.model Demo.fails_on_second)
    [Demo.grey 1; Demo.grey 2; Demo.grey 3] 0 = true ∧
  ((VideoProcessor.run Demo.three_frames "in.mp4" "out.mp4" "best.pt").2
     = Ok ()
   ↔ is_Some (Expected.expected_sink Demo.three_frames
                (Demo.model Demo.fails_on_second)
                [Demo.grey 1; Demo.grey 2; Demo.grey 3] 0)).
Proof.
  split; [split; reflexivity|]. split; [reflexivity|].
  split; [reflexivity|]. split; [vm_compute; reflexivity|].
  apply (run_completes_iff Demo.three_frames "in.mp4" "out.mp4" "best.pt"
           (Demo.model Demo.fails_on_second) Demo.props
           [Demo.grey 1; Demo.grey 2; Demo.grey 3]).
  - split; reflexivity.
  - reflexivity.
  - reflexivity.
  - vm_compute. reflexivity.
Defined.

(** A row of four values after a well-formed one: the first row is drawn,
    and the error of line 88 is the one raised. *)
Lemma run_error_kinds_witness :
  let rows := [ [1 # 1; 1 # 1; 3 # 1; 2 # 1; 9 # 10; 1 # 1];
                [1 # 1; 1 # 1; 3 # 1; 2 # 1] ] in
  let W := Demo.world [Demo.grey 1] (λ _ _, Ok (Some rows)) in
  let e := ValueError "not enough values to unpack (expected 6, got 4)" in
  (∀ model props frames,
      Observe.model_loads W "best.pt" model →
      VideoProcessor.VideoCapture W "in.mp4" = Some (props, frames) →
      Accepted.answers_drawable W model frames 0 = true) ∧
  (VideoProcessor.run W "in.mp4" "out.mp4" "best.pt").2 = Raise e ∧
  (Observe.model_load_fails W "best.pt" e
   ∨ e = IOError ("Cannot open video file: " +:+ "in.mp4")
   ∨ e = IOError ("Cannot initialize video writer for: " +:+ "out.mp4")
   ∨ e = Expected.no_boxes_error ∨ Expected.is_unpack_error e).
Proof.
  intros rows W e.
  assert (∀ model props frames,
             Observe.model_loads W "best.pt" model →
             VideoProcessor.VideoCapture W "in.mp4" = Some (props, frames) →
             Accepted.answers_drawable W model frames 0 = true) as Hfit.
  { intros model props frames [[= <-] _] [= <- <-]. vm_compute. reflexivity. }
  split; [exact Hfit|]. split; [vm_compute; reflexivity|].
  apply (run_error_kinds W "in.mp4" "out.mp4" "best.pt" e).
  - exact Hfit.
  - vm_compute. reflexivity.
Defined.

(** Only ["out.mp4"] can be created in the small world. *)
Lemma sink_failure_releases_source_witness :
  Observe.model_loads Demo.three_frames "best.pt"
    (Demo.model Demo.fails_on_second) ∧
  VideoProcessor.VideoCapture Demo.three_frames "in.mp4"
    = Some (Demo.props, [Demo.grey 1; Demo.grey 2; Demo.grey 3]) ∧
  Observe.writer_opens Demo.three_frames "nowhere/out.mp4" Demo.props = false ∧
  ((VideoProcessor.run Demo.three_frames "in.mp4" "nowhere/out.mp4"
      "best.pt").2
     = Raise (IOError ("Cannot initialize video writer for: "
                         +:+ "nowhere/out.mp4")) ∧
   VideoProcessor.cap
     (VideoProcessor.run Demo.three_frames "in.mp4" "nowhere/out.mp4"
        "best.pt").1 = VideoProcessor.Released ∧
   VideoProcessor.video_writer
     (VideoProcessor.run Demo.three_frames "in.mp4" "nowhere/out.mp4"
        "best.pt").1 = VideoProcessor.NotOpened ∧
   last (VideoProcessor.trace
           (VideoProcessor.run Demo.three_frames "in.mp4" "nowhere/out.mp4"
              "best.pt").1) = Some VideoProcessor.EvReleaseSource).
Proof.
  split; [split; reflexivity|]. split; [reflexivity|].
  split; [reflexivity|].
  apply (sink_failure_releases_source Demo.three_frames "in.mp4"
           "nowhere/out.mp4" "best.pt" (Demo.model Demo.fails_on_second)
           Demo.props [Demo.grey 1; Demo.grey 2; Demo.grey 3]).
  - split; reflexivity.
  - reflexivity.
  - reflexivity.
Defined.

Lemma completed_run_releases_witness :
  (VideoProcessor.run Demo.three_frames "in.mp4" "out.mp4" "best.pt").2
    = Ok () ∧
  (VideoProcessor.cap
     (VideoProcessor.run Demo.three_frames "in.mp4" "out.mp4" "best.pt").1
     = VideoProcessor.Released ∧
   VideoProcessor.video_writer
     (VideoProcessor.run Demo.three_frames "in.mp4" "out.mp4" "best.pt").1
     = VideoProcessor.Released).
Proof.
  split; [vm_compute; reflexivity|].
  apply (completed_run_releases Demo.three_frames "in.mp4" "out.mp4"
           "best.pt").
  vm_compute. reflexivity.
Defined.

(** Two hundred and fifty frames: progress is recorded at frames 100 and
    200, and [predict] is called 250 times. *)
Example progress_every_hundred_frames :
  let r := VideoProcessor.run
             (Demo.world (replicate 250 (Demo.grey 0)) Demo.no_boxes)
             "in.mp4" "out.mp4" "best.pt" in
  Expected.progress_numbers (VideoProcessor.trace r.1) = [100; 200]%Z ∧
  length (Expected.predict_numbers (VideoProcessor.trace r.1)) = 250%nat ∧
  Observe.frames_read r.1 = 250%nat.
Proof. vm_compute. split_and!; reflexivity. Qed.

(** ** app/routes.py: the upload route *)

Section UploadRoute.
Import PyStr PyPath Upload.

(** [splitext] cuts the name in two, and its second part is empty or
    starts with a dot. *)
Lemma splitext_join (p : string) : (splitext p).1 +:+ (splitext p).2 = p.
Proof.
  unfold splitext.
  destruct (rsplit1_at "." p) as [[root after]|] eqn:E; simpl.
  - apply rsplit1_at_some in E as [-> _].
    destruct (_ && _); simpl; [done|].
    induction (root +:+ String "." after) as [|a s IH]; [done|].
    by rewrite append_cons, IH.
  - induction p as [|a s IH]; [done|]. rewrite append_cons. f_equal.
    apply IH. simpl in E. destruct (rsplit1_at "." s) as [[??]|]; [done|].
    by case_decide.
Qed.

Lemma string_app_empty (s : string) : s +:+ "" = s.
Proof. induction s as [|a s IH]; [done|]. by rewrite append_cons, IH. Qed.

Lemma splitext_ext (p : string) :
  (splitext p).2 = EmptyString ∨ startswith_dot (splitext p).2 = true.
Proof.
  unfold splitext.
  destruct (rsplit1_at "." p) as [[root after]|]; simpl; [|by left].
  destruct (_ && _); simpl; [by right|by left].
Qed.

(** [allowed_file] answers on every name. *)
Lemma allowed_file_total (name : string) :
  ∃ b, Config.allowed_file name = Ok b.
Proof.
  unfold Config.allowed_file, rsplit1.
  destruct (contains "." name) eqn:Hdot; [|by eexists].
  destruct (rsplit1_at "." name) as [[pre post]|] eqn:E; [by eexists|].
  apply rsplit1_at_none in E. congruence.
Qed.

Variable A : App.

Lemma unique_filename_eq (original_filename : string) :
  unique_filename A original_filename
  = String.substring 0 8 (uuid4_hex A) +:+ "_" +:+ original_filename.
Proof.
  unfold unique_filename.
  pose proof (splitext_join original_filename) as Hj.
  destruct (splitext_ext original_filename) as [He|He].
  - rewrite He in Hj |- *. simpl. by rewrite Hj.
  - rewrite He, andb_false_r. by rewrite Hj.
Qed.

(** X12. The stored name is the first eight characters of the UUID, an
    underscore and the sanitised name, unchanged: the extension
    [splitext] returns is empty or starts with a dot, so the branch that
    would add a dot is never taken, and root and extension give the name
    back. *)
Theorem unique_filename_keeps_name (original_filename : string) :
  unique_filename A original_filename
  = String.substring 0 8 (uuid4_hex A) +:+ "_" +:+ original_filename.
Proof. apply unique_filename_eq. Qed.

Lemma os_remove_spec (p : string) (fs0 : gset string) :
  (os_remove A p fs0).1 = removed A p fs0 ∧
  ((os_remove A p fs0).2 = Ok ()
   ∨ ∃ e, (os_remove A p fs0).2 = Raise e ∧ is_OSError e = true).
Proof.
  unfold os_remove, removed.
  destruct (bool_decide (p ∈ fs0)); simpl; [|eauto].
  destruct (remove_denied A p); simpl; eauto.
Qed.

(** The guarded deletion never raises and flashes nothing. *)
Lemma remove_or_log_spec (entry : string → exn → log_entry) (p : string)
    (c : Ctx) :
  (remove_or_log A entry p c).2 = Ok () ∧
  fs (remove_or_log A entry p c).1 = removed A p (fs c) ∧
  flashes (remove_or_log A entry p c).1 = flashes c ∧
  ∃ l, errors (remove_or_log A entry p c).1 = errors c ++ l.
Proof.
  unfold remove_or_log.
  destruct (os_remove_spec p (fs c)) as [Hfs [Hok|(e & He & Hos)]].
  - destruct (os_remove A p (fs c)) as [fs' r]. simpl in *. subst.
    split_and!; try done. exists []. by rewrite app_nil_r.
  - destruct (os_remove A p (fs c)) as [fs' r]. simpl in *. subst.
    rewrite Hos. split_and!; try done. by eexists.
Qed.

Lemma removed_absent (p : string) (fs0 : gset string) :
  p ∉ fs0 → removed A p fs0 = fs0.
Proof. intros H. unfold removed. by rewrite bool_decide_eq_false_2. Qed.

(** The handler of [except Exception]: one record, one flash, the two
    deletions, and a redirect. *)
Lemma on_error_spec (request : Request) (name : string) (e : exn) (c : Ctx) :
  (on_error A request name e c).2 = Ok (Redirect (url request)) ∧
  fs (on_error A request name e c).1
    = removed A (output_path A name) (removed A (upload_path A name) (fs c)) ∧
  flashes (on_error A request name e c).1
    = flashes c ++ [("An error occurred during processing: "
                       +:+ exn_str A e, "danger")] ∧
  ∃ l, errors (on_error A request name e c).1
       = errors c ++ ErrProcessing name e :: l.
Proof.
  unfold on_error.
  set (c0 := flash _ _ (log_error _ c)).
  assert (fs c0 = fs c) as Hfs0 by done.
  assert (flashes c0 = flashes c ++ [("An error occurred during processing: "
                                        +:+ exn_str A e, "danger")])
    as Hfl0 by done.
  assert (errors c0 = errors c ++ [ErrProcessing name e]) as Her0 by done.
  clearbody c0.
  assert (∃ c1 l1, (if bool_decide (upload_path A name ∈ fs c0)
                    then remove_or_log A ErrDeleteUploadOnError
                           (upload_path A name) c0
                    else (c0, Ok ())) = (c1, Ok ()) ∧
                   fs c1 = removed A (upload_path A name) (fs c0) ∧
                   flashes c1 = flashes c0 ∧ errors c1 = errors c0 ++ l1)
    as (c1 & l1 & -> & Hfs1 & Hfl1 & Her1).
  { case_bool_decide as Hin.
    - destruct (remove_or_log_spec ErrDeleteUploadOnError
                  (upload_path A name) c0) as (Hok & H1 & H2 & l & H3).
      destruct (remove_or_log A _ _ c0) as [c1 r]. simpl in *. subst.
      by exists c1, l.
    - exists c0, []. rewrite removed_absent, app_nil_r by done. done. }
  assert (∃ c2 l2, (if bool_decide (output_path A name ∈ fs c1)
                    then remove_or_log A ErrDeleteOutputOnError
                           (output_path A name) c1
                    else (c1, Ok ())) = (c2, Ok ()) ∧
                   fs c2 = removed A (output_path A name) (fs c1) ∧
                   flashes c2 = flashes c1 ∧ errors c2 = errors c1 ++ l2)
    as (c2 & l2 & -> & Hfs2 & Hfl2 & Her2).
  { case_bool_decide as Hin.
    - destruct (remove_or_log_spec ErrDeleteOutputOnError
                  (output_path A name) c1) as (Hok & H1 & H2 & l & H3).
      destruct (remove_or_log A _ _ c1) as [c2 r]. simpl in *. subst.
      by exists c2, l.
    - exists c1, []. rewrite removed_absent, app_nil_r by done. done. }
  simpl. rewrite Hfs2, Hfs1, Hfs0, Hfl2, Hfl1, Hfl0, Her2, Her1, Her0.
  split_and!; try done. exists (l1 ++ l2). by rewrite <- !app_assoc.
Qed.

Lemma removed_spec (p : string) (fs0 : gset string) :
  (p ∉ removed A p fs0 ∨ remove_denied A p = true) ∧
  removed A p fs0 ⊆ fs0 ∧ fs0 ∖ {[p]} ⊆ removed A p fs0.
Proof.
  unfold removed. case_bool_decide as Hin; simpl.
  - destruct (remove_denied A p); simpl.
    + split_and!; [by right|done|]. apply subseteq_difference_l. done.
    + split_and!; [left|..].
      * intros Hp. apply elem_of_difference in Hp as [_ Hp].
        apply Hp. by apply elem_of_singleton.
      * apply subseteq_difference_l. done.
      * done.
  - split_and!; [by left|done|]. apply subseteq_difference_l. done.
Qed.

Lemma index_accepted (request : Request) (file : FileStorage) (c : Ctx) :
  accepted request = Some file →
  index A request c = store_and_process A request file c.
Proof.
  unfold accepted, index.
  case_bool_decide; [|done].
  destruct (files request !! "file") as [file'|]; [|done].
  case_bool_decide; [done|]. simpl.
  destruct (Config.allowed_file (filename file')) as [[]|]; [|done..].
  by intros [= ->].
Qed.

(** What [index] does with a request it does not accept. *)
Lemma index_rejected (request : Request) (c : Ctx) :
  accepted request = None →
  fs (index A request c).1 = fs c ∧
  errors (index A request c).1 = errors c ∧
  if bool_decide (method request = "POST")
  then (index A request c).2 = Ok (Redirect (url request)) ∧
       ∃ text category,
         flashes (index A request c).1 = flashes c ++ [(text, category)]
  else (index A request c).2 = Ok (Render "index.html" None) ∧
       flashes (index A request c).1 = flashes c.
Proof.
  unfold accepted, index.
  case_bool_decide; [|done].
  destruct (files request !! "file") as [file|]; [|by eauto 10].
  case_bool_decide; [by eauto 10|]. simpl.
  destruct (allowed_file_total (filename file)) as [b Hb].
  rewrite Hb. destruct b; [done|]. intros _. simpl. eauto 10.
Qed.

(** X13. A request that is not a POST carrying a named file of an allowed
    type changes nothing on disk and logs nothing: nothing is saved,
    processed or deleted.  A POST is answered by a redirect to the same
    page with one flashed message, any other method by the upload form. *)
Theorem index_rejects_without_effect (request : Request) (c : Ctx) :
  accepted request = None →
  fs (index A request c).1 = fs c ∧
  errors (index A request c).1 = errors c ∧
  if bool_decide (method request = "POST")
  then (index A request c).2 = Ok (Redirect (url request)) ∧
       ∃ text category,
         flashes (index A request c).1 = flashes c ++ [(text, category)]
  else (index A request c).2 = Ok (Render "index.html" None) ∧
       flashes (index A request c).1 = flashes c.
Proof. apply index_rejected. Qed.

(** X14. When the file is saved and the pipeline completes, the answer is
    the result page naming ["processed_"] followed by the stored name, the
    upload has been deleted (unless the deletion was refused) and nothing
    else on disk has been touched by the route; two messages are flashed. *)
Theorem index_success (request : Request) (file : FileStorage) (c : Ctx)
    (fs1 fs2 : gset string) :
  let name := secure_filename A (filename file) in
  accepted request = Some file →
  save A file (upload_path A name) (fs c) = (fs1, Ok ()) →
  process_video A (upload_path A name) (output_path A name) (MODEL_PATH A) fs1
    = (fs2, Ok ()) →
  (index A request c).2
    = Ok (Render "results.html"
            (Some ("processed_" +:+ String.substring 0 8 (uuid4_hex A)
                     +:+ "_" +:+ name))) ∧
  fs (index A request c).1 = removed A (upload_path A name) fs2 ∧
  flashes (index A request c).1
    = flashes c ++
        [ ("File " +:+ dq +:+ name +:+ dq
             +:+ " uploaded successfully. Starting processing...", "info");
          ("Video processing complete for " +:+ dq +:+ name +:+ dq +:+ ".",
           "success") ].
Proof.
  intros name Hacc Hsave Hproc.
  rewrite (index_accepted request file c Hacc).
  unfold store_and_process. fold name. rewrite Hsave. simpl.
  rewrite Hproc.
  set (c2 := flash _ "success" _).
  destruct (remove_or_log_spec ErrDeleteUpload (upload_path A name) c2)
    as (Hok & Hfs & Hfl & _).
  destruct (remove_or_log A ErrDeleteUpload (upload_path A name) c2)
    as [c3 r]. simpl in *. subst r. simpl.
  rewrite Hfs, Hfl. unfold output_filename.
  rewrite unique_filename_eq. unfold c2. simpl.
  by rewrite <- app_assoc.
Qed.

(** X15. When saving the file or the pipeline raises, the answer is a
    redirect to the same page with the error flashed and logged, and the
    route has tried to delete the upload and the output: afterwards each of
    the two is gone unless its deletion was refused, and no other file has
    been removed. *)
Theorem index_failure_cleans_up (request : Request) (file : FileStorage)
    (c : Ctx) (fs1 fsx : gset string) (e : exn) :
  let name := secure_filename A (filename file) in
  let up := upload_path A name in
  let out := output_path A name in
  accepted request = Some file →
  save A file up (fs c) = (fsx, Raise e)
  ∨ (save A file up (fs c) = (fs1, Ok ())
     ∧ process_video A up out (MODEL_PATH A) fs1 = (fsx, Raise e)) →
  (index A request c).2 = Ok (Redirect (url request)) ∧
  fs (index A request c).1 = removed A out (removed A up fsx) ∧
  (up ∉ fs (index A request c).1 ∨ remove_denied A up = true) ∧
  (out ∉ fs (index A request c).1 ∨ remove_denied A out = true) ∧
  fs (index A request c).1 ⊆ fsx ∧
  fsx ∖ {[up]} ∖ {[out]} ⊆ fs (index A request c).1 ∧
  last (flashes (index A request c).1)
    = Some ("An error occurred during processing: " +:+ exn_str A e,
            "danger") ∧
  ErrProcessing name e ∈ errors (index A request c).1.
Proof.
  intros name up out Hacc Hfail.
  rewrite (index_accepted request file c Hacc).
  assert (∃ c', fs c' = fsx ∧
                store_and_process A request file c
                = on_error A request name e c') as (c' & Hfs' & ->).
  { unfold store_and_process. fold name up out.
    destruct Hfail as [Hsave|[Hsave Hproc]].
    - rewrite Hsave. by exists (set_fs fsx c).
    - rewrite Hsave. simpl. rewrite Hproc.
      by exists (set_fs fsx
                   (flash ("File " +:+ dq +:+ name +:+ dq
                             +:+ " uploaded successfully. Starting processing...")
                      "info" (set_fs fs1 c))). }
  destruct (on_error_spec request name e c') as (Hok & Hfs & Hfl & l & Her).
  fold up out in Hfs. rewrite Hok, Hfs, Hfl, Her, Hfs'.
  destruct (removed_spec up fsx) as (Hup & Hsub1 & Hsup1).
  destruct (removed_spec out (removed A up fsx)) as (Hout & Hsub2 & Hsup2).
  split_and!; try done.
  - destruct Hup as [Hup|Hup]; [left|by right].
    intros Hin. apply Hup. by apply Hsub2.
  - by etrans.
  - etrans; [|exact Hsup2]. intros x Hx.
    apply elem_of_difference in Hx as [Hx Hx2].
    apply elem_of_difference. split; [by apply Hsup1|done].
  - by rewrite last_snoc.
  - apply elem_of_app. right. apply list_elem_of_here.
Qed.

(** X16. [index] always answers: no exception of [file.save], of the
    pipeline or of [os.remove] reaches its caller, and [allowed_file] is
    only asked about names on which it cannot fail. *)
Theorem index_never_raises (request : Request) (c : Ctx) :
  ∃ resp, (index A request c).2 = Ok resp.
Proof.
  destruct (accepted request) as [file|] eqn:Hacc.
  - rewrite (index_accepted request file c Hacc). unfold store_and_process.
    set (name := secure_filename A (filename file)).
    destruct (save A file _ (fs c)) as [fs1 [[]|e]].
    + simpl.
      destruct (process_video A _ _ (MODEL_PATH A) fs1) as [fs2 [[]|e]].
      * set (c2 := flash _ "success" _).
        destruct (remove_or_log_spec ErrDeleteUpload (upload_path A name) c2)
          as (Hok & _).
        destruct (remove_or_log A ErrDeleteUpload (upload_path A name) c2)
          as [c3 r]. simpl in *. subst r. by eexists.
      * destruct (on_error_spec request name e
                    (set_fs fs2 (flash
                       ("File " +:+ dq +:+ name +:+ dq
                          +:+ " uploaded successfully. Starting processing...")
                       "info" (set_fs fs1 c)))) as (Hok & _).
        by eexists.
    + destruct (on_error_spec request name e (set_fs fs1 c)) as (Hok & _).
      by eexists.
  - destruct (index_rejected request c Hacc) as (_ & _ & H).
    case_bool_decide; destruct H as [H _]; by eexists.
Qed.

End UploadRoute.

(** A text file is not accepted: nothing happens on disk. *)
Lemma index_rejects_without_effect_witness :
  Upload.accepted (DemoUpload.post "notes.txt") = None ∧
  (Upload.fs (Upload.index (DemoUpload.app true) (DemoUpload.post "notes.txt")
                DemoUpload.start).1 = Upload.fs DemoUpload.start ∧
   Upload.errors (Upload.index (DemoUpload.app true)
                    (DemoUpload.post "notes.txt") DemoUpload.start).1
     = Upload.errors DemoUpload.start ∧
   if bool_decide (Upload.method (DemoUpload.post "notes.txt") = "POST")
   then (Upload.index (DemoUpload.app true) (DemoUpload.post "notes.txt")
           DemoUpload.start).2
          = Ok (Upload.Redirect (Upload.url (DemoUpload.post "notes.txt"))) ∧
        ∃ text category,
          Upload.flashes (Upload.index (DemoUpload.app true)
                            (DemoUpload.post "notes.txt") DemoUpload.start).1
          = Upload.flashes DemoUpload.start ++ [(text, category)]
   else (Upload.index (DemoUpload.app true) (DemoUpload.post "notes.txt")
           DemoUpload.start).2 = Ok (Upload.Render "index.html" None) ∧
        Upload.flashes (Upload.index (DemoUpload.app true)
                          (DemoUpload.post "notes.txt") DemoUpload.start).1
        = Upload.flashes DemoUpload.start).
Proof.
  split; [vm_compute; reflexivity|].
  apply (index_rejects_without_effect (DemoUpload.app true)
           (DemoUpload.post "notes.txt") DemoUpload.start).
  vm_compute. reflexivity.
Defined.

(** An accepted clip whose processing completes. *)
Lemma index_success_witness :
  let A := DemoUpload.app true in
  let request := DemoUpload.post "clip.MP4" in
  let file := Upload.mkFile "clip.MP4" in
  let c := DemoUpload.start in
  let name := Upload.secure_filename A (Upload.filename file) in
  let fs1 := Upload.fs c ∪ {[Upload.upload_path A name]} in
  let fs2 := fs1 ∪ {[Upload.output_path A name]} in
  Upload.accepted request = Some file ∧
  Upload.save A file (Upload.upload_path A name) (Upload.fs c)
    = (fs1, Ok ()) ∧
  Upload.process_video A (Upload.upload_path A name)
    (Upload.output_path A name) (Upload.MODEL_PATH A) fs1 = (fs2, Ok ()) ∧
  ((Upload.index A request c).2
     = Ok (Upload.Render "results.html"
             (Some ("processed_"
                      +:+ String.substring 0 8 (Upload.uuid4_hex A)
                      +:+ "_" +:+ name))) ∧
   Upload.fs (Upload.index A request c).1
     = Upload.removed A (Upload.upload_path A name) fs2 ∧
   Upload.flashes (Upload.index A request c).1
     = Upload.flashes c ++
         [ ("File " +:+ Upload.dq +:+ name +:+ Upload.dq
              +:+ " uploaded successfully. Starting processing...", "info");
           ("Video processing complete for " +:+ Upload.dq +:+ name
              +:+ Upload.dq +:+ ".", "success") ]).
Proof.
  intros A request file c name fs1 fs2.
  split; [vm_compute; reflexivity|]. split; [reflexivity|].
  split; [reflexivity|].
  apply (index_success A request file c fs1 fs2).
  - vm_compute. reflexivity.
  - reflexivity.
  - reflexivity.
Defined.

(** An accepted clip whose processing raises after the output was
    created: both files are deleted again. *)
Lemma index_failure_cleans_up_witness :
  let A := DemoUpload.app false in
  let request := DemoUpload.post "clip.MP4" in
  let file := Upload.mkFile "clip.MP4" in
  let c := DemoUpload.start in
  let name := Upload.secure_filename A (Upload.filename file) in
  let up := Upload.upload_path A name in
  let out := Upload.output_path A name in
  let fs1 := Upload.fs c ∪ {[up]} in
  let fsx := fs1 ∪ {[out]} in
  let e := IOError ("Cannot open video file: " +:+ up) in
  Upload.accepted request = Some file ∧
  (Upload.save A file up (Upload.fs c) = (fsx, Raise e)
   ∨ (Upload.save A file up (Upload.fs c) = (fs1, Ok ())
      ∧ Upload.process_video A up out (Upload.MODEL_PATH A) fs1
        = (fsx, Raise e))) ∧
  ((Upload.index A request c).2
     = Ok (Upload.Redirect (Upload.url request)) ∧
   Upload.fs (Upload.index A request c).1
     = Upload.removed A out (Upload.removed A up fsx) ∧
   (up ∉ Upload.fs (Upload.index A request c).1
    ∨ Upload.remove_denied A up = true) ∧
   (out ∉ Upload.fs (Upload.index A request c).1
    ∨ Upload.remove_denied A out = true) ∧
   Upload.fs (Upload.index A request c).1 ⊆ fsx ∧
   fsx ∖ {[up]} ∖ {[out]} ⊆ Upload.fs (Upload.index A request c).1 ∧
   last (Upload.flashes (Upload.index A request c).1)
     = Some ("An error occurred during processing: " +:+ Upload.exn_str A e,
             "danger") ∧
   Upload.ErrProcessing name e ∈ Upload.errors (Upload.index A request c).1).
Proof.
  intros A request file c name up out fs1 fsx e.
  split; [vm_compute; reflexivity|].
  split; [right; split; reflexivity|].
  apply (index_failure_cleans_up A request file c fs1 fsx e).
  - vm_compute. reflexivity.
  - right. split; reflexivity.
Defined.

(** After the failed run of the small application neither the upload nor
    the output is left on disk. *)
Example failed_upload_leaves_no_file :
  Upload.fs (Upload.index (DemoUpload.app false) (DemoUpload.post "clip.MP4")
               DemoUpload.start).1 = ∅ ∧
  Upload.fs (Upload.index (DemoUpload.app true) (DemoUpload.post "clip.MP4")
               DemoUpload.start).1
    = {[ "outputs/processed_01234567_clip.MP4" ]}.
Proof. split; vm_compute; reflexivity. Qed.
